(** * freee document clients: session, retry and document layer

    A shallow embedding of [show_invoice.py] and [show_quotation.py]:
    the OAuth2 session of the two command line clients, their
    refresh-on-401 request wrapper, the company selection and the list and
    detail operations, with the properties of the design document proved
    or refuted on the embedding.

    Python objects are JSON values, exceptions are values of [exn], and a
    method is a function from the program state to a result and a new
    state.  An exception leaves the state as it was when it was raised. *)

From Stdlib Require Import String Ascii List ZArith Bool Lia.
Import ListNotations.

Set Warnings "-register-all".

Local Open Scope string_scope.
Local Open Scope Z_scope.

(** ** Python values and builtins *)

Module Py.

(** What [json.load] and [response.json()] produce.  [JFloat m e] is the
    decimal [m * 10^e]; [JNull] is [None]. *)
Inductive json : Type :=
| JNull
| JBool (b : bool)
| JInt (z : Z)
| JFloat (m e : Z)
| JStr (s : string)
| JArr (l : list json)
| JObj (kv : list (string * json)).

(** The exception classes the two scripts can meet. *)
Inductive exn : Type :=
| KeyError
| AttributeError
| TypeError
| ValueError
| JSONDecodeError
| RequestException
| OSError
| EOFError
| SystemExit (code : Z).

(** [except Exception] catches everything but [SystemExit]. *)
Definition is_Exception (e : exn) : bool :=
  match e with SystemExit _ => false | _ => true end.

(** [json.JSONDecodeError] is a subclass of [ValueError]. *)
Definition is_ValueError (e : exn) : bool :=
  match e with ValueError | JSONDecodeError => true | _ => false end.

Definition is_JSONDecodeError (e : exn) : bool :=
  match e with JSONDecodeError => true | _ => false end.

Inductive res (A : Type) : Type :=
| Ok (a : A)
| Raise (e : exn).
Arguments Ok {A} a.
Arguments Raise {A} e.

(** [bool(x)]. *)
Definition truthy (j : json) : bool :=
  match j with
  | JNull => false
  | JBool b => b
  | JInt z => negb (z =? 0)
  | JFloat m _ => negb (m =? 0)
  | JStr s => negb (s =? "")%string
  | JArr l => match l with [] => false | _ :: _ => true end
  | JObj kv => match kv with [] => false | _ :: _ => true end
  end.

(** Dictionaries keep insertion order; a key occurs once. *)
Fixpoint dict_find {V : Type} (k : string) (kv : list (string * V)) : option V :=
  match kv with
  | [] => None
  | (k', v) :: r => if (k' =? k)%string then Some v else dict_find k r
  end.

(** [d[k] = v]. *)
Fixpoint dict_set {V : Type} (k : string) (v : V) (kv : list (string * V))
  : list (string * V) :=
  match kv with
  | [] => [(k, v)]
  | (k', v') :: r =>
      if (k' =? k)%string then (k, v) :: r else (k', v') :: dict_set k v r
  end.

(** [d1.update(d2)]. *)
Definition dict_update {V : Type} (d1 d2 : list (string * V)) : list (string * V) :=
  fold_left (fun d p => dict_set (fst p) (snd p) d) d2 d1.

(** [x.get(k, default)]: only dictionaries have [get]. *)
Definition py_get (j : json) (k : string) (default : json) : res json :=
  match j with
  | JObj kv => Ok (match dict_find k kv with Some v => v | None => default end)
  | _ => Raise AttributeError
  end.

(** [x[k]] for a string key. *)
Definition py_getitem (j : json) (k : string) : res json :=
  match j with
  | JObj kv => match dict_find k kv with Some v => Ok v | None => Raise KeyError end
  | _ => Raise TypeError
  end.

(** [x[k] = v] for a string key. *)
Definition py_setitem (j : json) (k : string) (v : json) : res json :=
  match j with
  | JObj kv => Ok (JObj (dict_set k v kv))
  | _ => Raise TypeError
  end.

(** [len(x)]. *)
Definition py_len (j : json) : res nat :=
  match j with
  | JArr l => Ok (List.length l)
  | JStr s => Ok (String.length s)
  | JObj kv => Ok (List.length kv)
  | _ => Raise TypeError
  end.

Fixpoint chars (s : string) : list json :=
  match s with
  | EmptyString => []
  | String c r => JStr (String c EmptyString) :: chars r
  end.

(** The elements a [for] loop over [x] visits. *)
Definition py_iter (j : json) : res (list json) :=
  match j with
  | JArr l => Ok l
  | JStr s => Ok (chars s)
  | JObj kv => Ok (map (fun p => JStr (fst p)) kv)
  | _ => Raise TypeError
  end.

(** [x[i]] for an index [0 <= i < len(x)]. *)
Definition py_index (j : json) (i : nat) : res json :=
  match j with
  | JArr l => match nth_error l i with Some v => Ok v | None => Raise KeyError end
  | JStr s => match nth_error (chars s) i with Some v => Ok v | None => Raise KeyError end
  | JObj _ => Raise KeyError
  | _ => Raise TypeError
  end.

(** Whether the format specifications [:,] and [:,.0f] accept the value:
    numbers (and booleans) are printed, a string is a [ValueError],
    anything else a [TypeError]. *)
Definition fmt_number (j : json) : res unit :=
  match j with
  | JInt _ | JFloat _ _ | JBool _ => Ok tt
  | JStr _ => Raise ValueError
  | _ => Raise TypeError
  end.

(** [sub in s]. *)
Fixpoint contains (sub s : string) : bool :=
  if prefix sub s then true
  else match s with
       | EmptyString => false
       | String _ r => contains sub r
       end.

(** *** An ASCII instance of [str.strip] and [int]

    The client is stated over any [strip] and [int]; these two are the
    behaviour of the builtins on ASCII text and serve to run it. *)

Definition is_space (c : ascii) : bool :=
  let n := nat_of_ascii c in
  ((9 <=? n) && (n <=? 13) || (28 <=? n) && (n <=? 32))%nat.

Fixpoint lstrip (s : string) : string :=
  match s with
  | String c r => if is_space c then lstrip r else s
  | EmptyString => EmptyString
  end.

Fixpoint rstrip (s : string) : string :=
  match s with
  | EmptyString => EmptyString
  | String c r =>
      match rstrip r with
      | EmptyString => if is_space c then EmptyString else String c EmptyString
      | r' => String c r'
      end
  end.

Definition ascii_strip (s : string) : string := rstrip (lstrip s).

Definition digit_of (c : ascii) : option Z :=
  let n := nat_of_ascii c in
  if ((48 <=? n) && (n <=? 57))%nat then Some (Z.of_nat n - 48) else None.

(** Digits with single underscores between them; [acc] is the value read
    so far and [after_digit] tells whether the last character was a
    digit. *)
Fixpoint digits (s : string) (acc : Z) (after_digit : bool) : option Z :=
  match s with
  | EmptyString => if after_digit then Some acc else None
  | String c r =>
      match digit_of c with
      | Some d => digits r (10 * acc + d) true
      | None =>
          if (Ascii.eqb c "_"%char && after_digit)%bool
          then match r with
               | EmptyString => None
               | _ => digits r acc false
               end
          else None
      end
  end.

(** [int(s)]: [None] stands for [ValueError]. *)
Definition ascii_int (s : string) : option Z :=
  match ascii_strip s with
  | String "+"%char r => digits r 0 false
  | String "-"%char r => option_map Z.opp (digits r 0 false)
  | r => digits r 0 false
  end.

End Py.
Import Py.

(** ** The outside world: HTTP, the token file, the terminal *)

(** A header value: a literal, or [f'Bearer {token}']. *)
Inductive hval : Type :=
| HLit (s : string)
| HBearer (token : json).

(** The arguments of one [requests] call. *)
Record Request : Type := {
  rq_method : string;
  rq_url : string;
  rq_headers : list (string * hval);
  rq_params : option (list (string * json));
  rq_data : option (list (string * json));
  rq_timeout : Z
}.

(** What the scripts read of a response: [status_code],
    [headers.get('Content-Type')] and [json()], which is [None] when the
    body does not decode. *)
Record Response : Type := {
  status_code : Z;
  content_type : option string;
  json_body : option json
}.

(** A call is answered, or raises (timeout, connection error). *)
Inductive Outcome : Type :=
| Answer (r : Response)
| Failure.

(** The token file: missing, present but not loadable, or a JSON value. *)
Inductive FileState : Type :=
| Absent
| Broken
| Content (j : json).

Inductive Prompt : Type :=
| AskAuthCode
| AskCompany (n : nat)
| AskTokenChoice.

(** What a run does to the world, newest first.  [EvRefresh] marks an
    entry into [_refresh_access_token]. *)
Inductive Event : Type :=
| EvHttp (rq : Request) (out : Outcome)
| EvRefresh
| EvBrowser (url : string) (query : list (string * json))
| EvInput (p : Prompt)
| EvSave (path : string) (j : json)
| EvRemove (path : string).

(** The attributes of the client object. *)
Record Self : Type := {
  access_token : json;
  refresh_token : json;
  company_id : json;
  tokens_loaded : bool
}.

(** The world: the token file and whether it can be written and removed,
    the lines waiting on the terminal, the number of HTTP calls made so
    far and the events so far. *)
Record World : Type := {
  token_file : FileState;
  writable : bool;
  removable : bool;
  stdin : list string;
  clock : nat;
  trace : list Event
}.

Record State : Type := {
  self : Self;
  world : World
}.

Definition with_self (f : Self -> Self) (s : State) : State :=
  {| self := f (self s); world := world s |}.

Definition with_world (f : World -> World) (s : State) : State :=
  {| self := self s; world := f (world s) |}.

Definition log (e : Event) (w : World) : World :=
  {| token_file := token_file w; writable := writable w; removable := removable w;
     stdin := stdin w; clock := clock w; trace := e :: trace w |}.

Definition tick (w : World) : World :=
  {| token_file := token_file w; writable := writable w; removable := removable w;
     stdin := stdin w; clock := S (clock w); trace := trace w |}.

Definition put_file (f : FileState) (w : World) : World :=
  {| token_file := f; writable := writable w; removable := removable w;
     stdin := stdin w; clock := clock w; trace := trace w |}.

Definition put_stdin (l : list string) (w : World) : World :=
  {| token_file := token_file w; writable := writable w; removable := removable w;
     stdin := l; clock := clock w; trace := trace w |}.

(** ** The monad of methods: state, with exceptions that keep the state *)

Definition M (A : Type) : Type := State -> res A * State.

Definition ret {A : Type} (a : A) : M A := fun s => (Ok a, s).

Definition raise {A : Type} (e : exn) : M A := fun s => (Raise e, s).

Definition bind {A B : Type} (m : M A) (k : A -> M B) : M B :=
  fun s => match m s with
           | (Ok a, s') => k a s'
           | (Raise e, s') => (Raise e, s')
           end.

Declare Scope py_scope.
Delimit Scope py_scope with py.
Notation "x <- m ;; k" := (bind m (fun x => k))
  (at level 61, m at next level, right associativity) : py_scope.
Notation "m ;; k" := (bind m (fun _ => k))
  (at level 61, right associativity) : py_scope.
Local Open Scope py_scope.

(** [try: m except <classes selected by catches>: h]. *)
Definition try_except {A : Type} (m : M A) (catches : exn -> bool) (h : M A) : M A :=
  fun s => match m s with
           | (Ok a, s') => (Ok a, s')
           | (Raise e, s') => if catches e then h s' else (Raise e, s')
           end.

Definition lift {A : Type} (r : res A) : M A := fun s => (r, s).

Definition gets {A : Type} (f : State -> A) : M A := fun s => (Ok (f s), s).

Definition modify (f : State -> State) : M unit := fun s => (Ok tt, f s).

(** [sys.exit(code)]. *)
Definition sys_exit {A : Type} (code : Z) : M A := raise (SystemExit code).

Definition set_access_token (v : json) : M unit :=
  modify (with_self (fun o =>
    {| access_token := v; refresh_token := refresh_token o;
       company_id := company_id o; tokens_loaded := tokens_loaded o |})).

Definition set_refresh_token (v : json) : M unit :=
  modify (with_self (fun o =>
    {| access_token := access_token o; refresh_token := v;
       company_id := company_id o; tokens_loaded := tokens_loaded o |})).

Definition set_company_id (v : json) : M unit :=
  modify (with_self (fun o =>
    {| access_token := access_token o; refresh_token := refresh_token o;
       company_id := v; tokens_loaded := tokens_loaded o |})).

Definition set_tokens_loaded (b : bool) : M unit :=
  modify (with_self (fun o =>
    {| access_token := access_token o; refresh_token := refresh_token o;
       company_id := company_id o; tokens_loaded := b |})).

Definition emit (e : Event) : M unit := modify (with_world (log e)).

(** [response.json()]. *)
Definition response_json (r : Response) : res json :=
  match json_body r with
  | Some j => Ok j
  | None => Raise JSONDecodeError
  end.

(** [for x in l: f(x)], stopping at the first exception. *)
Fixpoint for_each (f : json -> res unit) (l : list json) : res unit :=
  match l with
  | [] => Ok tt
  | x :: r => match f x with
              | Ok _ => for_each f r
              | Raise e => Raise e
              end
  end.

(** [x.get(k)] evaluated for its exception only. *)
Definition touch (x : json) (k : string) : res unit :=
  match py_get x k JNull with
  | Ok _ => Ok tt
  | Raise e => Raise e
  end.

(** [print(f"{company.get('display_name')} (ID: {company.get('id')})")],
    for its exception only. *)
Definition print_company (company : json) : res unit :=
  match touch company "display_name" with
  | Ok _ => touch company "id"
  | Raise e => Raise e
  end.

(** [if v:] for an optional string argument. *)
Definition given (v : option string) : bool :=
  match v with
  | Some s => negb (s =? "")%string
  | None => false
  end.

Definition opt_str (v : option string) : json :=
  match v with
  | Some s => JStr s
  | None => JNull
  end.

(** [os.path.exists(TOKEN_FILE)]. *)
Definition path_exists : M bool :=
  gets (fun s => match token_file (world s) with Absent => false | _ => true end).

(** [with open(TOKEN_FILE, 'r') as f: json.load(f)].  A file that cannot
    be read or decoded raises; every caller catches [Exception]. *)
Definition read_token_file : M json :=
  fun s => match token_file (world s) with
           | Content j => (Ok j, s)
           | Broken => (Raise JSONDecodeError, s)
           | Absent => (Raise OSError, s)
           end.

(** ** The client class

    [FreeeInvoiceAPI] and [FreeeQuotationAPI] have the same methods up to
    [get_company_info]; they are embedded once.  What the class reads from
    its module is a variable of the section: the two secrets, the path of
    the token file, the server, and the builtins [str.strip] and [int]. *)

Definition AUTH_URL : string := "https://accounts.secure.freee.co.jp/public_api/authorize".
Definition TOKEN_URL : string := "https://accounts.secure.freee.co.jp/public_api/token".
Definition API_BASE_URL : string := "https://api.freee.co.jp".
Definition INVOICE_API_BASE : string := "/iv".

(** [TOKEN_FILE] of [show_invoice.py], and of [show_quotation.py] (there
    under the directory of the script). *)
Definition INVOICE_TOKEN_FILE : string := "freee_tokens.json".
Definition QUOTATION_TOKEN_FILE : string := "freee_tokens_quotation.json".

(** [**kwargs] of [_api_request]: the callers pass [headers] and [params]. *)
Record kwargs : Type := {
  kw_headers : option (list (string * hval));
  kw_params : option (list (string * json))
}.

Definition no_kwargs : kwargs := {| kw_headers := None; kw_params := None |}.

Definition with_params (p : list (string * json)) : kwargs :=
  {| kw_headers := None; kw_params := Some p |}.

Section Client.

(** The answer of the server to the [n]-th HTTP call of the run. *)
Variable server : nat -> Request -> Outcome.
Variables CLIENT_ID CLIENT_SECRET : option string.
Variable TOKEN_FILE : string.
(** [str.strip], and [int] on a string ([None] for [ValueError]). *)
Variable strip : string -> string.
Variable int : string -> option Z.

(** One [requests] call: the server answers by the call's number. *)
Definition http (rq : Request) : M Response :=
  fun s =>
    let out := server (clock (world s)) rq in
    let s' := with_world (fun w => tick (log (EvHttp rq out) w)) s in
    match out with
    | Answer r => (Ok r, s')
    | Failure => (Raise RequestException, s')
    end.

(** [input(prompt)]: the next line of the terminal, [EOFError] at its end. *)
Definition input (p : Prompt) : M string :=
  fun s =>
    match stdin (world s) with
    | line :: rest =>
        (Ok line, with_world (fun w => put_stdin rest (log (EvInput p) w)) s)
    | [] => (Raise EOFError, with_world (log (EvInput p)) s)
    end.

(** [os.remove(TOKEN_FILE)]. *)
Definition os_remove : M unit :=
  fun s =>
    match token_file (world s) with
    | Absent => (Raise OSError, s)
    | _ =>
        if removable (world s)
        then (Ok tt, with_world (fun w => put_file Absent (log (EvRemove TOKEN_FILE) w)) s)
        else (Raise OSError, s)
    end.

Definition _save_tokens (token_data : json) : M unit :=
  fun s =>
    if writable (world s)
    then (Ok tt, with_world (fun w => put_file (Content token_data)
                                        (log (EvSave TOKEN_FILE token_data) w)) s)
    else (Raise OSError, s).

Definition _load_tokens : M unit :=
  ex <- path_exists ;;
  if ex then
    try_except
      (tokens <- read_token_file ;;
       a <- lift (py_get tokens "access_token" JNull) ;;
       set_access_token a ;;
       r <- lift (py_get tokens "refresh_token" JNull) ;;
       set_refresh_token r ;;
       c <- lift (py_get tokens "company_id" JNull) ;;
       set_company_id c ;;
       set_tokens_loaded true)
      is_Exception
      (set_tokens_loaded false)
  else ret tt.

Definition post_token (data : list (string * json)) : Request :=
  {| rq_method := "POST"; rq_url := TOKEN_URL; rq_headers := [];
     rq_params := None; rq_data := Some data; rq_timeout := 10 |}.

(** The form [_refresh_access_token] posts. *)
Definition refresh_data (rt : json) : list (string * json) :=
  [("grant_type", JStr "refresh_token");
   ("client_id", opt_str CLIENT_ID);
   ("client_secret", opt_str CLIENT_SECRET);
   ("refresh_token", rt)].

Definition _refresh_access_token : M bool :=
  emit EvRefresh ;;
  rt <- gets (fun s => refresh_token (self s)) ;;
  if negb (truthy rt) then ret false
  else
    let data := refresh_data rt in
    try_except
      (response <- http (post_token data) ;;
       if status_code response =? 200 then
         token_data <- lift (response_json response) ;;
         a <- lift (py_getitem token_data "access_token") ;;
         set_access_token a ;;
         r <- lift (py_getitem token_data "refresh_token") ;;
         set_refresh_token r ;;
         cid <- gets (fun s => company_id (self s)) ;;
         token_data <- (if truthy cid
                        then lift (py_setitem token_data "company_id" cid)
                        else ret token_data) ;;
         _save_tokens token_data ;;
         ret true
       else ret false)
      is_Exception
      (ret false).

Definition _verify_token : M bool :=
  tok <- gets (fun s => access_token (self s)) ;;
  if negb (truthy tok) then ret false
  else
    let headers := [("Authorization", HBearer tok)] in
    try_except
      (response <- http {| rq_method := "GET";
                           rq_url := API_BASE_URL ++ "/api/1/companies";
                           rq_headers := headers; rq_params := None;
                           rq_data := None; rq_timeout := 10 |} ;;
       if status_code response =? 200 then ret true
       else if status_code response =? 401 then _refresh_access_token
       else ret false)
      is_Exception
      (ret false).

Definition redirect_uri : string := "urn:ietf:wg:oauth:2.0:oob".

(** The query of the authorization URL [_authenticate] opens. *)
Definition authorize_query : list (string * json) :=
  [("response_type", JStr "code");
   ("client_id", opt_str CLIENT_ID);
   ("redirect_uri", JStr redirect_uri);
   ("prompt", JStr "select_company")].

(** The form [_authenticate] posts to exchange the code. *)
Definition exchange_data (auth_code : string) : list (string * json) :=
  [("grant_type", JStr "authorization_code");
   ("client_id", opt_str CLIENT_ID);
   ("client_secret", opt_str CLIENT_SECRET);
   ("code", JStr auth_code);
   ("redirect_uri", JStr redirect_uri)].

Definition _authenticate : M unit :=
  let params := authorize_query in
  (* webbrowser.open, under a bare except *)
  emit (EvBrowser AUTH_URL params) ;;
  line <- input AskAuthCode ;;
  let auth_code := strip line in
  if (auth_code =? "")%string then sys_exit 1
  else
    let data := exchange_data auth_code in
    try_except
      (response <- http (post_token data) ;;
       if status_code response =? 200 then
         token_data <- lift (response_json response) ;;
         a <- lift (py_getitem token_data "access_token") ;;
         set_access_token a ;;
         r <- lift (py_getitem token_data "refresh_token") ;;
         set_refresh_token r ;;
         c <- lift (py_get token_data "company_id" JNull) ;;
         set_company_id c ;;
         _save_tokens token_data
       else sys_exit 1)
      is_Exception
      (sys_exit 1).

(** [_api_request] as [show_quotation.py] has it.  In [show_invoice.py]
    the method has no [use_invoice_api] and its URL is the [else] branch:
    that is this one at [use_invoice_api = false]. *)
Definition _api_request (method endpoint : string) (use_invoice_api : bool)
  (kw : kwargs) : M Response :=
  tok <- gets (fun s => access_token (self s)) ;;
  let headers := [("Authorization", HBearer tok);
                  ("Content-Type", HLit "application/json")] in
  let headers := match kw_headers kw with
                 | Some h => dict_update headers h
                 | None => headers
                 end in
  let url := if use_invoice_api
             then API_BASE_URL ++ INVOICE_API_BASE ++ endpoint
             else API_BASE_URL ++ endpoint in
  let request h := {| rq_method := method; rq_url := url; rq_headers := h;
                      rq_params := kw_params kw; rq_data := None;
                      rq_timeout := 30 |} in
  (* try: ... except Exception: print and re-raise *)
  response <- http (request headers) ;;
  if status_code response =? 401 then
    refreshed <- _refresh_access_token ;;
    if refreshed then
      tok' <- gets (fun s => access_token (self s)) ;;
      let headers := dict_set "Authorization" (HBearer tok') headers in
      response <- http (request headers) ;;
      ret response
    else ret response
  else ret response.

Definition get_company_info : M json :=
  response <- _api_request "GET" "/api/1/companies" false no_kwargs ;;
  if status_code response =? 200 then
    companies <- lift (response_json response) ;;
    company_list <- lift (py_get companies "companies" (JArr [])) ;;
    _ <- lift (py_len company_list) ;;
    items <- lift (py_iter company_list) ;;
    lift (for_each print_company items) ;;
    ret company_list
  else ret (JArr []).

(** The [while True] loop of [_fetch_company_id].  Each turn reads one
    line, so the loop is a recursion on the lines waiting on the terminal;
    at their end [input] raises [EOFError]. *)
Fixpoint company_loop (companies : json) (n : nat) (lines : list string) : M unit :=
  match lines with
  | [] => _ <- input (AskCompany n) ;; raise EOFError
  | _ :: rest =>
      line <- input (AskCompany n) ;;
      let choice := strip line in
      match int choice with
      | None => company_loop companies n rest            (* except ValueError *)
      | Some k =>
          let idx := k - 1 in
          if (0 <=? idx) && (idx <? Z.of_nat n) then
            company <- lift (py_index companies (Z.to_nat idx)) ;;
            cid <- lift (py_get company "id" JNull) ;;
            set_company_id cid ;;
            lift (touch company "display_name")
          else company_loop companies n rest
      end
  end.

Definition _fetch_company_id : M unit :=
  companies <- get_company_info ;;
  n <- (if truthy companies then lift (py_len companies) else ret 0%nat) ;;
  if (0 <? n)%nat then
    (if (1 <? n)%nat then
       items <- lift (py_iter companies) ;;
       lift (for_each print_company items) ;;
       lines <- gets (fun s => stdin (world s)) ;;
       company_loop companies n lines
     else
       company <- lift (py_index companies 0) ;;
       cid <- lift (py_get company "id" JNull) ;;
       set_company_id cid ;;
       lift (touch company "display_name")) ;;
    ex <- path_exists ;;
    if ex then
      try_except
        (tokens <- read_token_file ;;
         cid <- gets (fun s => company_id (self s)) ;;
         tokens <- lift (py_setitem tokens "company_id" cid) ;;
         _save_tokens tokens)
        is_Exception
        (ret tt)
    else ret tt
  else ret tt.

Definition fresh_self : Self :=
  {| access_token := JNull; refresh_token := JNull; company_id := JNull;
     tokens_loaded := false |}.

Definition __init__ : M unit :=
  modify (with_self (fun _ => fresh_self)) ;;
  if negb (given CLIENT_ID) || negb (given CLIENT_SECRET) then raise ValueError
  else
    _load_tokens ;;
    loaded <- gets (fun s => tokens_loaded (self s)) ;;
    valid <- (if loaded then _verify_token else ret false) ;;
    (if negb valid then _authenticate else ret tt) ;;
    cid <- gets (fun s => company_id (self s)) ;;
    if negb (truthy cid) then _fetch_company_id else ret tt.

(** *** [show_invoice.py]: the document operations *)

(** The [params] dictionary [get_invoices] builds. *)
Definition invoices_params (cid : json) (limit : Z)
  (start_date end_date invoice_status : option string) : list (string * json) :=
  let params := [("company_id", cid); ("limit", JInt limit)] in
  let params := if given start_date
                then dict_set "start_issue_date" (opt_str start_date) params
                else params in
  let params := if given end_date
                then dict_set "end_issue_date" (opt_str end_date) params
                else params in
  let params := if given invoice_status
                then dict_set "invoice_status" (opt_str invoice_status) params
                else params in
  params.

Definition get_invoices (limit : Z) (start_date end_date invoice_status : option string)
  : M json :=
  cid <- gets (fun s => company_id (self s)) ;;
  if negb (truthy cid) then ret (JArr [])
  else
    let params := invoices_params cid limit start_date end_date invoice_status in
    response <- _api_request "GET" "/api/1/invoices" false (with_params params) ;;
    if status_code response =? 200 then
      try_except
        (let ct := match content_type response with Some c => c | None => "" end in
         if negb (contains "application/json" ct) then ret (JArr [])
         else
           data <- lift (response_json response) ;;
           invoices <- lift (py_get data "invoices" (JArr [])) ;;
           _ <- lift (py_len invoices) ;;
           (if truthy invoices then
              items <- lift (py_iter invoices) ;;
              lift (for_each (fun inv =>
                                match touch inv "invoice_number" with
                                | Ok _ =>
                                    match py_get inv "total_amount" (JInt 0) with
                                    | Ok amount => fmt_number amount
                                    | Raise e => Raise e
                                    end
                                | Raise e => Raise e
                                end) items)
            else ret tt) ;;
           ret invoices)
        is_JSONDecodeError
        (ret (JArr []))
    else ret (JArr []).

(** [invoice_id] is the identifier as the f-string prints it. *)
Definition get_invoice_detail (invoice_id : string) : M json :=
  cid <- gets (fun s => company_id (self s)) ;;
  if negb (truthy cid) then ret JNull
  else
    let params := [("company_id", cid)] in
    response <- _api_request "GET" ("/api/1/invoices/" ++ invoice_id) false
                  (with_params params) ;;
    if status_code response =? 200 then
      try_except
        (body <- lift (response_json response) ;;
         invoice <- lift (py_get body "invoice" JNull) ;;
         lift (touch invoice "invoice_number") ;;
         ret invoice)
        is_JSONDecodeError
        (ret JNull)
    else ret JNull.

(** *** [show_quotation.py]: the document operations *)

(** The [params] dictionary [get_quotations] builds. *)
Definition quotations_params (cid : json) (limit : Z)
  (start_date end_date sending_status : option string) : list (string * json) :=
  let params := [("company_id", cid); ("limit", JInt (Z.min limit 100))] in
  let params := if given start_date
                then dict_set "start_quotation_date" (opt_str start_date) params
                else params in
  let params := if given end_date
                then dict_set "end_quotation_date" (opt_str end_date) params
                else params in
  let params := if given sending_status
                then dict_set "sending_status" (opt_str sending_status) params
                else params in
  params.

Definition get_quotations (limit : Z) (start_date end_date sending_status : option string)
  : M json :=
  cid <- gets (fun s => company_id (self s)) ;;
  if negb (truthy cid) then ret (JArr [])
  else
    let params := quotations_params cid limit start_date end_date sending_status in
    response <- _api_request "GET" "/quotations" true (with_params params) ;;
    if status_code response =? 200 then
      try_except
        (let ct := match content_type response with Some c => c | None => "" end in
         if negb (contains "application/json" ct) then ret (JArr [])
         else
           data <- lift (response_json response) ;;
           quotations <- lift (py_get data "quotations" (JArr [])) ;;
           _ <- lift (py_len quotations) ;;
           (if truthy quotations then
              items <- lift (py_iter quotations) ;;
              lift (for_each (fun q =>
                                match touch q "partner_name" with
                                | Ok _ =>
                                    match py_get q "total_amount" (JInt 0) with
                                    | Ok amount => fmt_number amount
                                    | Raise e => Raise e
                                    end
                                | Raise e => Raise e
                                end) items)
            else ret tt) ;;
           ret quotations)
        is_JSONDecodeError
        (ret (JArr []))
    else ret (JArr []).

Definition get_quotation_detail (quotation_id : string) : M json :=
  cid <- gets (fun s => company_id (self s)) ;;
  if negb (truthy cid) then ret JNull
  else
    let params := [("company_id", cid)] in
    response <- _api_request "GET" ("/quotations/" ++ quotation_id) true
                  (with_params params) ;;
    if status_code response =? 200 then
      try_except
        (body <- lift (response_json response) ;;
         quotation <- lift (py_get body "quotation" JNull) ;;
         lift (touch quotation "quotation_number") ;;
         ret quotation)
        is_JSONDecodeError
        (ret JNull)
    else ret JNull.

(** *** [main], up to the construction of the client

    [reauth] is the [--reauth] flag.  The report that follows the
    construction is not part of the session layer. *)

Definition discard_token_file : M unit :=
  try_except os_remove is_Exception (ret tt).

Definition main_prelude (reauth : bool) : M unit :=
  ex <- path_exists ;;
  if reauth then
    (if ex then discard_token_file else ret tt)
  else if ex then
    line <- input AskTokenChoice ;;
    let choice := strip line in
    if (choice =? "2")%string then discard_token_file else ret tt
  else ret tt.

Definition main (reauth : bool) : M unit :=
  main_prelude reauth ;;
  try_except __init__ is_Exception (sys_exit 1).

End Client.

(** ** The document service of the design document

    [DocumentService<Schema>]: one body for both document kinds.  The
    schema carries the endpoint base and paths, the keys of the list and
    detail responses and the names of the date and status filters; the
    [limit] sent is capped at 100.  Everything else is the code the two
    clients have in common. *)

Record DocumentSchema : Type := {
  sch_invoice_api : bool;
  sch_list_path : string;
  sch_detail_path : string;
  sch_list_key : string;
  sch_detail_key : string;
  sch_number_key : string;
  sch_start_key : string;
  sch_end_key : string;
  sch_status_key : string
}.

Definition invoice_schema : DocumentSchema :=
  {| sch_invoice_api := false;
     sch_list_path := "/api/1/invoices";
     sch_detail_path := "/api/1/invoices/";
     sch_list_key := "invoices";
     sch_detail_key := "invoice";
     sch_number_key := "invoice_number";
     sch_start_key := "start_issue_date";
     sch_end_key := "end_issue_date";
     sch_status_key := "invoice_status" |}.

Definition quotation_schema : DocumentSchema :=
  {| sch_invoice_api := true;
     sch_list_path := "/quotations";
     sch_detail_path := "/quotations/";
     sch_list_key := "quotations";
     sch_detail_key := "quotation";
     sch_number_key := "quotation_number";
     sch_start_key := "start_quotation_date";
     sch_end_key := "end_quotation_date";
     sch_status_key := "sending_status" |}.

Section DocumentService.

Variable server : nat -> Request -> Outcome.
Variables CLIENT_ID CLIENT_SECRET : option string.
Variable TOKEN_FILE : string.
Variable sch : DocumentSchema.

Definition DocumentService_params (cid : json) (limit : Z)
  (start_date end_date status : option string) : list (string * json) :=
  let params := [("company_id", cid); ("limit", JInt (Z.min limit 100))] in
  let params := if given start_date
                then dict_set (sch_start_key sch) (opt_str start_date) params
                else params in
  let params := if given end_date
                then dict_set (sch_end_key sch) (opt_str end_date) params
                else params in
  let params := if given status
                then dict_set (sch_status_key sch) (opt_str status) params
                else params in
  params.

Definition DocumentService_list (limit : Z) (start_date end_date status : option string)
  : M json :=
  cid <- gets (fun s => company_id (self s)) ;;
  if negb (truthy cid) then ret (JArr [])
  else
    let params := DocumentService_params cid limit start_date end_date status in
    response <- _api_request server CLIENT_ID CLIENT_SECRET TOKEN_FILE
                  "GET" (sch_list_path sch) (sch_invoice_api sch) (with_params params) ;;
    if status_code response =? 200 then
      try_except
        (let ct := match content_type response with Some c => c | None => "" end in
         if negb (contains "application/json" ct) then ret (JArr [])
         else
           data <- lift (response_json response) ;;
           documents <- lift (py_get data (sch_list_key sch) (JArr [])) ;;
           _ <- lift (py_len documents) ;;
           (if truthy documents then
              items <- lift (py_iter documents) ;;
              lift (for_each (fun doc =>
                                match touch doc (sch_number_key sch) with
                                | Ok _ =>
                                    match py_get doc "total_amount" (JInt 0) with
                                    | Ok amount => fmt_number amount
                                    | Raise e => Raise e
                                    end
                                | Raise e => Raise e
                                end) items)
            else ret tt) ;;
           ret documents)
        is_JSONDecodeError
        (ret (JArr []))
    else ret (JArr []).

Definition DocumentService_detail (document_id : string) : M json :=
  cid <- gets (fun s => company_id (self s)) ;;
  if negb (truthy cid) then ret JNull
  else
    let params := [("company_id", cid)] in
    response <- _api_request server CLIENT_ID CLIENT_SECRET TOKEN_FILE
                  "GET" (sch_detail_path sch ++ document_id) (sch_invoice_api sch)
                  (with_params params) ;;
    if status_code response =? 200 then
      try_except
        (body <- lift (response_json response) ;;
         document <- lift (py_get body (sch_detail_key sch) JNull) ;;
         lift (touch document (sch_number_key sch)) ;;
         ret document)
        is_JSONDecodeError
        (ret JNull)
    else ret JNull.

End DocumentService.

(** ** Observations on a run *)

Definition count {A : Type} (p : A -> bool) (l : list A) : nat :=
  List.length (filter p l).

(** An entry into [_refresh_access_token]. *)
Definition is_refresh (e : Event) : bool :=
  match e with EvRefresh => true | _ => false end.

(** A call of the token endpoint. *)
Definition is_token_post (e : Event) : bool :=
  match e with
  | EvHttp rq _ => (rq_url rq =? TOKEN_URL)%string
  | _ => false
  end.

(** A call of a resource endpoint. *)
Definition is_api_call (e : Event) : bool :=
  match e with
  | EvHttp rq _ => negb (rq_url rq =? TOKEN_URL)%string
  | _ => false
  end.

Definition is_prompt (e : Event) : bool :=
  match e with EvInput _ => true | _ => false end.

(** What [requests] hands back for an outcome. *)
Definition delivered (out : Outcome) : res Response :=
  match out with
  | Answer r => Ok r
  | Failure => Raise RequestException
  end.

(** [s'] comes after [s]: the events of [s] are the oldest events of [s']. *)
Definition extends (s s' : State) : Prop :=
  exists d, trace (world s') = (d ++ trace (world s))%list.

(** [s'] comes after [s] with no line read from the terminal in between. *)
Definition unprompted (s s' : State) : Prop :=
  stdin (world s') = stdin (world s) /\
  exists d, trace (world s') = (d ++ trace (world s))%list /\
            count is_prompt d = 0%nat.

(** Every run of the method relates the state before to the state after,
    whether it returns or raises. *)
Definition preserves (R : State -> State -> Prop) {A : Type} (m : M A) : Prop :=
  forall s, R s (snd (m s)).

(** The request [_api_request] sends, with the Authorization header built
    from [token]. *)
Definition api_call (method endpoint : string) (use_invoice_api : bool)
  (kw : kwargs) (token : json) : Request :=
  let headers := [("Authorization", HBearer token);
                  ("Content-Type", HLit "application/json")] in
  let headers := match kw_headers kw with
                 | Some h => dict_update headers h
                 | None => headers
                 end in
  {| rq_method := method;
     rq_url := if use_invoice_api
               then API_BASE_URL ++ INVOICE_API_BASE ++ endpoint
               else API_BASE_URL ++ endpoint;
     rq_headers := headers;
     rq_params := kw_params kw; rq_data := None; rq_timeout := 30 |}.

(** The retried request: the same, with [headers['Authorization']]
    overwritten from [token]. *)
Definition api_retry (method endpoint : string) (use_invoice_api : bool)
  (kw : kwargs) (old_token token : json) : Request :=
  let rq := api_call method endpoint use_invoice_api kw old_token in
  {| rq_method := rq_method rq; rq_url := rq_url rq;
     rq_headers := dict_set "Authorization" (HBearer token) (rq_headers rq);
     rq_params := rq_params rq; rq_data := rq_data rq; rq_timeout := rq_timeout rq |}.

(** Whether the company loop takes a line: it parses as an integer in
    [1 .. n]. *)
Definition accepted (strip : string -> string) (int : string -> option Z)
  (n : nat) (line : string) : bool :=
  match int (strip line) with
  | Some k => (1 <=? k) && (k <=? Z.of_nat n)
  | None => false
  end.

(** The Authenticating branch has run: the authorization URL was opened
    and the code was asked for. *)
Definition authenticating_ran (tr : list Event) : Prop :=
  exists query, In (EvBrowser AUTH_URL query) tr /\ In (EvInput AskAuthCode) tr.

(** The state after one line was read at the company prompt. *)
Definition prompted (n : nat) (rest : list string) (s : State) : State :=
  with_world (fun w => put_stdin rest (log (EvInput (AskCompany n)) w)) s.

(** ** Fixtures: a scripted server and small worlds *)

Module Demo.

(** The [n]-th call gets the [n]-th outcome of the script. *)
Definition scripted (script : list Outcome) : nat -> Request -> Outcome :=
  fun n _ => nth n script Failure.

Definition json_answer (status : Z) (body : json) : Outcome :=
  Answer {| status_code := status; content_type := Some "application/json";
            json_body := Some body |}.

Definition html_answer (status : Z) : Outcome :=
  Answer {| status_code := status; content_type := Some "text/html";
            json_body := None |}.

Definition tokens (a r : string) : json :=
  JObj [("access_token", JStr a); ("refresh_token", JStr r)].

Definition credential (a r : string) (cid : json) : json :=
  JObj [("access_token", JStr a); ("refresh_token", JStr r); ("company_id", cid)].

Definition company (id : Z) (name : string) : json :=
  JObj [("id", JInt id); ("display_name", JStr name)].

Definition disk (file : FileState) (can_write can_remove : bool) (lines : list string)
  : World :=
  {| token_file := file; writable := can_write; removable := can_remove;
     stdin := lines; clock := 0%nat; trace := [] |}.

(** A client holding the credential [(a, r, cid)]. *)
Definition logged_in (a r : string) (cid : json) (w : World) : State :=
  {| self := {| access_token := JStr a; refresh_token := JStr r;
                company_id := cid; tokens_loaded := true |};
     world := w |}.

Definition not_started (w : World) : State :=
  {| self := fresh_self; world := w |}.

(** A client with a stored credential and company 7. *)
Definition stored : json := credential "old" "r0" (JInt 7).

Definition s_old : State :=
  logged_in "old" "r0" (JInt 7) (disk (Content stored) true true []).

(** The token has expired; the refresh works; the retry is refused too. *)
Definition srv_expired : nat -> Request -> Outcome :=
  scripted [json_answer 401 (JObj []);
            json_answer 200 (tokens "new" "r1");
            json_answer 401 (JObj [])].

(** The token has expired and the refresh is refused. *)
Definition srv_denied : nat -> Request -> Outcome :=
  scripted [json_answer 401 (JObj []); json_answer 400 (JObj [])].

(** The token endpoint answers 200 with both tokens. *)
Definition srv_refresh : nat -> Request -> Outcome :=
  scripted [json_answer 200 (tokens "new" "r1")].

(** The token endpoint answers 200 without a refresh token. *)
Definition srv_partial : nat -> Request -> Outcome :=
  scripted [json_answer 200 (JObj [("access_token", JStr "new")])].

Definition srv_html : nat -> Request -> Outcome :=
  scripted [html_answer 200].

Definition srv_empty_object : nat -> Request -> Outcome :=
  scripted [json_answer 200 (JObj [])].

Definition two_companies : json :=
  JArr [company 1 "A"; company 2 "B"].

Definition srv_two_companies : nat -> Request -> Outcome :=
  scripted [json_answer 200 (JObj [("companies", two_companies)])].

Definition srv_one_company : nat -> Request -> Outcome :=
  scripted [json_answer 200 (JObj [("companies", JArr [company 1 "A"])])].

(** A client that has no company yet, and what is typed at the prompt. *)
Definition s_choosing : State :=
  logged_in "tok" "r" JNull (disk Absent true true ["abc"; "0"; "3"; " 2 "; "later"]).

(** Before the client is constructed: the stored credential is there and
    the file cannot be removed. *)
Definition s_locked : State :=
  not_started (disk (Content stored) true false []).

(** Before the client is constructed: the stored credential is there,
    the file can be removed, and a code is typed. *)
Definition s_fresh_code : State :=
  not_started (disk (Content stored) true true ["code"]).

(** The probe of the stored token answers 200. *)
Definition srv_valid : nat -> Request -> Outcome :=
  scripted [json_answer 200 (JObj [("companies", JArr [company 7 "A"])])].

(** The code exchange answers 200 with a credential for company 7. *)
Definition srv_exchange : nat -> Request -> Outcome :=
  scripted [json_answer 200 (credential "new" "r1" (JInt 7))].

Definition ID : option string := Some "id".
Definition SECRET : option string := Some "secret".
Definition FILE : string := INVOICE_TOKEN_FILE.

End Demo.

(** ** Properties *)

(** *** The ASCII builtins on examples *)

Example ascii_int_plain : ascii_int " 12 " = Some 12.
Proof. reflexivity. Qed.

Example ascii_int_signed : ascii_int "-3" = Some (-3) /\ ascii_int "+4" = Some 4.
Proof. split; reflexivity. Qed.

Example ascii_int_underscore : ascii_int "1_0" = Some 10.
Proof. reflexivity. Qed.

Example ascii_int_refused :
  ascii_int "1__0" = None /\ ascii_int "abc" = None /\
  ascii_int "" = None /\ ascii_int "2_" = None /\ ascii_int "1.5" = None.
Proof. repeat split; reflexivity. Qed.

Example contains_json :
  contains "application/json" "application/json; charset=utf-8" = true /\
  contains "application/json" "text/html" = false /\
  contains "application/json" "" = false.
Proof. repeat split; reflexivity. Qed.

(** Case analysis on the innermost test of the goal. *)
Ltac break_match :=
  match goal with
  | |- context [match ?x with _ => _ end] =>
      lazymatch x with
      | context [match _ with _ => _ end] => fail
      | _ => destruct x eqn:?
      end
  end.

Ltac unfold_monad :=
  unfold set_access_token, set_refresh_token, set_company_id, set_tokens_loaded,
    path_exists, read_token_file, emit, sys_exit;
  unfold bind, ret, raise, lift, gets, modify, try_except.

(** *** Relations that every statement of a method preserves *)

Section Preserved.

Variable R : State -> State -> Prop.
Hypothesis R_refl : forall s, R s s.
Hypothesis R_trans : forall s1 s2 s3, R s1 s2 -> R s2 s3 -> R s1 s3.
Hypothesis R_self : forall f s, R s (with_self f s).

Lemma preserves_ret {A : Type} (a : A) : preserves R (ret a).
Proof. intro s. apply R_refl. Qed.

Lemma preserves_raise {A : Type} (e : exn) : preserves R (@raise A e).
Proof. intro s. apply R_refl. Qed.

Lemma preserves_lift {A : Type} (r : res A) : preserves R (lift r).
Proof. intro s. apply R_refl. Qed.

Lemma preserves_gets {A : Type} (f : State -> A) : preserves R (gets f).
Proof. intro s. apply R_refl. Qed.

Lemma preserves_with_self (f : Self -> Self) : preserves R (modify (with_self f)).
Proof. intro s. apply R_self. Qed.

Lemma preserves_bind {A B : Type} (m : M A) (k : A -> M B) :
  preserves R m -> (forall a, preserves R (k a)) -> preserves R (bind m k).
Proof.
  intros Hm Hk s. unfold bind. specialize (Hm s).
  destruct (m s) as [[a | e] s1]; cbn in *; [| exact Hm].
  eapply R_trans; [exact Hm | apply Hk].
Qed.

Lemma preserves_try_except {A : Type} (m : M A) (catches : exn -> bool) (h : M A) :
  preserves R m -> preserves R h -> preserves R (try_except m catches h).
Proof.
  intros Hm Hh s. unfold try_except. specialize (Hm s).
  destruct (m s) as [[a | e] s1]; cbn in *; [exact Hm |].
  destruct (catches e); cbn; [| exact Hm].
  eapply R_trans; [exact Hm | apply Hh].
Qed.

Lemma preserves_if {A : Type} (b : bool) (m1 m2 : M A) :
  preserves R m1 -> preserves R m2 -> preserves R (if b then m1 else m2).
Proof. destruct b; auto. Qed.

Lemma preserves_path_exists : preserves R path_exists.
Proof. intro s. apply R_refl. Qed.

Lemma preserves_read_token_file : preserves R read_token_file.
Proof.
  intro s. unfold read_token_file.
  destruct (token_file (world s)); apply R_refl.
Qed.

End Preserved.

(** Goes through a method body, one statement at a time; the facts on
    the relation and on the calls of the body are taken from the context. *)
Ltac through :=
  repeat first
    [ solve [auto using preserves_ret, preserves_raise, preserves_lift,
               preserves_gets, preserves_with_self, preserves_path_exists,
               preserves_read_token_file]
    | apply preserves_bind; [assumption | | intro]
    | apply preserves_try_except; [assumption | |]
    | apply preserves_if
    | match goal with
      | |- preserves _ (match ?x with _ => _ end) => destruct x
      end
    | unfold set_access_token, set_refresh_token, set_company_id,
        set_tokens_loaded, sys_exit ].

(** A preorder on states that no assignment to an attribute, no HTTP call,
    no save and no entry into the refresh leaves is kept by the refresh,
    by [_api_request] and by [get_company_info]. *)

Section PreservedByRequests.

Variable R : State -> State -> Prop.
Hypothesis R_refl : forall s, R s s.
Hypothesis R_trans : forall s1 s2 s3, R s1 s2 -> R s2 s3 -> R s1 s3.
Hypothesis R_self : forall f s, R s (with_self f s).

Variable server : nat -> Request -> Outcome.
Variables CLIENT_ID CLIENT_SECRET : option string.
Variable TOKEN_FILE : string.

Hypothesis R_http : forall rq, preserves R (http server rq).
Hypothesis R_save : forall j, preserves R (_save_tokens TOKEN_FILE j).
Hypothesis R_refresh_entry : preserves R (emit EvRefresh).

Lemma preserves_refresh :
  preserves R (_refresh_access_token server CLIENT_ID CLIENT_SECRET TOKEN_FILE).
Proof. unfold _refresh_access_token. through. Qed.

Lemma preserves_api_request (method endpoint : string) (flag : bool) (kw : kwargs) :
  preserves R (_api_request server CLIENT_ID CLIENT_SECRET TOKEN_FILE
                 method endpoint flag kw).
Proof. pose proof preserves_refresh. unfold _api_request. through. Qed.

Lemma preserves_company_info :
  preserves R (get_company_info server CLIENT_ID CLIENT_SECRET TOKEN_FILE).
Proof. pose proof preserves_api_request. unfold get_company_info. through. Qed.

End PreservedByRequests.

(** *** Counting events *)

Lemma count_app {A : Type} (p : A -> bool) (l1 l2 : list A) :
  count p (l1 ++ l2) = (count p l1 + count p l2)%nat.
Proof. unfold count. rewrite filter_app. apply length_app. Qed.

Lemma count_cons {A : Type} (p : A -> bool) (x : A) (l : list A) :
  count p (x :: l) = ((if p x then 1 else 0) + count p l)%nat.
Proof. unfold count. cbn. destruct (p x); reflexivity. Qed.

(** *** The two relations: later in the run, and later with no prompt *)

Lemma extends_refl (s : State) : extends s s.
Proof. exists []. reflexivity. Qed.

Lemma extends_trans (s1 s2 s3 : State) :
  extends s1 s2 -> extends s2 s3 -> extends s1 s3.
Proof.
  intros [d1 H1] [d2 H2]. exists (d2 ++ d1)%list.
  rewrite H2, H1. apply app_assoc.
Qed.

Lemma extends_self (f : Self -> Self) (s : State) : extends s (with_self f s).
Proof. exists []. reflexivity. Qed.

Lemma extends_emit (e : Event) : preserves extends (emit e).
Proof. intro s. exists [e]. reflexivity. Qed.

Lemma unprompted_refl (s : State) : unprompted s s.
Proof. split; [reflexivity |]. exists []. split; reflexivity. Qed.

Lemma unprompted_trans (s1 s2 s3 : State) :
  unprompted s1 s2 -> unprompted s2 s3 -> unprompted s1 s3.
Proof.
  intros [E1 (d1 & H1 & C1)] [E2 (d2 & H2 & C2)]. split; [congruence |].
  exists (d2 ++ d1)%list. split.
  - rewrite H2, H1. apply app_assoc.
  - rewrite count_app, C1, C2. reflexivity.
Qed.

Lemma unprompted_self (f : Self -> Self) (s : State) : unprompted s (with_self f s).
Proof. split; [reflexivity |]. exists []. split; reflexivity. Qed.

Lemma unprompted_emit (e : Event) :
  is_prompt e = false -> preserves unprompted (emit e).
Proof.
  intros He s. split; [reflexivity |]. exists [e]. split; [reflexivity |].
  rewrite count_cons, He. reflexivity.
Qed.

Lemma unprompted_extends (s s' : State) : unprompted s s' -> extends s s'.
Proof. intros [_ (d & H & _)]. exists d. exact H. Qed.

(** *** The builtins raise ordinary exceptions *)

Lemma py_getitem_is_Exception (j : json) (k : string) (e : exn) :
  py_getitem j k = Raise e -> is_Exception e = true.
Proof.
  destruct j; cbn; try (intros [= <-]; reflexivity).
  destruct (dict_find k kv); intros [= <-]; reflexivity.
Qed.

Lemma py_setitem_is_Exception (j : json) (k : string) (v : json) (e : exn) :
  py_setitem j k v = Raise e -> is_Exception e = true.
Proof. destruct j; cbn; intros [= <-]; reflexivity. Qed.

Lemma py_get_is_Exception (j : json) (k : string) (v : json) (e : exn) :
  py_get j k v = Raise e -> is_Exception e = true.
Proof. destruct j; cbn; intros [= <-]; reflexivity. Qed.

Ltac absurd_exn :=
  exfalso;
  match goal with
  | H : py_getitem _ _ = Raise ?e, H' : is_Exception ?e = false |- _ =>
      apply py_getitem_is_Exception in H; congruence
  | H : py_setitem _ _ _ = Raise ?e, H' : is_Exception ?e = false |- _ =>
      apply py_setitem_is_Exception in H; congruence
  | H : py_get _ _ _ = Raise ?e, H' : is_Exception ?e = false |- _ =>
      apply py_get_is_Exception in H; congruence
  end.

Section Properties.

Set Default Proof Using "Type".

Variable server : nat -> Request -> Outcome.
Variables CLIENT_ID CLIENT_SECRET : option string.
Variable TOKEN_FILE : string.
Variable strip : string -> string.
Variable int : string -> option Z.

Abbreviation refresh := (_refresh_access_token server CLIENT_ID CLIENT_SECRET TOKEN_FILE).
Abbreviation api_request := (_api_request server CLIENT_ID CLIENT_SECRET TOKEN_FILE).
Abbreviation company_info := (get_company_info server CLIENT_ID CLIENT_SECRET TOKEN_FILE).

Lemma extends_http (rq : Request) : preserves extends (http server rq).
Proof.
  intro s. unfold http. exists [EvHttp rq (server (clock (world s)) rq)].
  destruct (server (clock (world s)) rq); reflexivity.
Qed.

Lemma extends_input (p : Prompt) : preserves extends (input p).
Proof.
  intro s. unfold input. exists [EvInput p].
  destruct (stdin (world s)); reflexivity.
Qed.

Lemma extends_save (j : json) : preserves extends (_save_tokens TOKEN_FILE j).
Proof.
  intro s. unfold _save_tokens.
  destruct (writable (world s)); [exists [EvSave TOKEN_FILE j] | exists []]; reflexivity.
Qed.

Lemma extends_company_info : preserves extends company_info.
Proof.
  apply preserves_company_info;
    first [exact extends_trans
          | auto using extends_refl, extends_self, extends_http, extends_save,
              extends_emit].
Qed.

Lemma extends_company_loop (companies : json) (n : nat) (lines : list string) :
  preserves extends (company_loop strip int companies n lines).
Proof.
  pose proof extends_input. pose proof extends_refl. pose proof extends_trans.
  pose proof extends_self.
  induction lines as [| l rest IH]; cbn [company_loop]; through.
Qed.

Lemma extends_fetch_company_id :
  preserves extends
    (_fetch_company_id server CLIENT_ID CLIENT_SECRET TOKEN_FILE strip int).
Proof.
  pose proof extends_company_info. pose proof extends_company_loop.
  pose proof extends_save. pose proof extends_refl. pose proof extends_trans.
  pose proof extends_self.
  unfold _fetch_company_id. through.
Qed.

Lemma unprompted_http (rq : Request) : preserves unprompted (http server rq).
Proof.
  intro s. unfold http. split.
  - destruct (server (clock (world s)) rq); reflexivity.
  - exists [EvHttp rq (server (clock (world s)) rq)].
    destruct (server (clock (world s)) rq); split; reflexivity.
Qed.

Lemma unprompted_save (j : json) : preserves unprompted (_save_tokens TOKEN_FILE j).
Proof.
  intro s. unfold _save_tokens.
  destruct (writable (world s)); (split; [reflexivity |]);
    [exists [EvSave TOKEN_FILE j] | exists []]; split; reflexivity.
Qed.

Lemma unprompted_api_request (method endpoint : string) (flag : bool) (kw : kwargs) :
  preserves unprompted (api_request method endpoint flag kw).
Proof.
  apply preserves_api_request;
    first [exact unprompted_trans
          | auto using unprompted_refl, unprompted_self, unprompted_http,
              unprompted_save, unprompted_emit].
Qed.

Lemma unprompted_company_info : preserves unprompted company_info.
Proof.
  apply preserves_company_info;
    first [exact unprompted_trans
          | auto using unprompted_refl, unprompted_self, unprompted_http,
              unprompted_save, unprompted_emit].
Qed.

(** No resource URL is the token endpoint. *)
Lemma api_call_is_api_call method endpoint flag kw token out :
  is_api_call (EvHttp (api_call method endpoint flag kw token) out) = true.
Proof. destruct flag; reflexivity. Qed.

Lemma api_retry_is_api_call method endpoint flag kw old token out :
  is_api_call (EvHttp (api_retry method endpoint flag kw old token) out) = true.
Proof. destruct flag; reflexivity. Qed.

Lemma api_call_not_token_post method endpoint flag kw token out :
  is_token_post (EvHttp (api_call method endpoint flag kw token) out) = false.
Proof. destruct flag; reflexivity. Qed.

Lemma api_retry_not_token_post method endpoint flag kw old token out :
  is_token_post (EvHttp (api_retry method endpoint flag kw old token) out) = false.
Proof. destruct flag; reflexivity. Qed.

(** *** One refresh *)

(** [_refresh_access_token] always returns a boolean; besides its own
    entry it adds at most one call of the token endpoint and one save. *)
Lemma refresh_shape (s : State) :
  exists b s' d,
    refresh s = (Ok b, s') /\
    trace (world s') = (d ++ EvRefresh :: trace (world s))%list /\
    count is_refresh d = 0%nat /\
    count is_api_call d = 0%nat /\
    (count is_token_post d <= 1)%nat.
Proof.
  unfold _refresh_access_token, refresh_data, http, _save_tokens, response_json.
  unfold_monad. cbn.
  repeat break_match; try discriminate; try absurd_exn; do 2 eexists;
    first
      [ exists []; split; [reflexivity |]; split; [reflexivity |];
        vm_compute; repeat split; lia
      | eexists (cons _ nil); split; [reflexivity |]; split; [reflexivity |];
        vm_compute; repeat split; lia
      | eexists (cons _ (cons _ nil)); split; [reflexivity |]; split; [reflexivity |];
        vm_compute; repeat split; lia ].
Qed.

(** When [_refresh_access_token] returns [False]. *)
Lemma refresh_fails_iff (s : State) :
  fst (refresh s) = Ok false <->
  truthy (refresh_token (self s)) = false \/
  match server (clock (world s))
          (post_token (refresh_data CLIENT_ID CLIENT_SECRET (refresh_token (self s)))) with
  | Failure => True
  | Answer r =>
      status_code r <> 200 \/
      match json_body r with
      | None => True
      | Some body =>
          py_getitem body "access_token" = Raise KeyError \/
          py_getitem body "access_token" = Raise TypeError \/
          py_getitem body "refresh_token" = Raise KeyError \/
          writable (world s) = false
      end
  end.
Proof.
  clear strip int.
  unfold _refresh_access_token, refresh_data, http, _save_tokens, response_json.
  unfold_monad. cbn.
  destruct (truthy (refresh_token (self s))); cbn; [| tauto].
  destruct (server _ _) as [r |]; cbn; [| tauto].
  destruct (status_code r =? 200) eqn:Hst; cbn;
    [apply Z.eqb_eq in Hst | apply Z.eqb_neq in Hst; tauto].
  destruct (json_body r) as [body |]; cbn; [| tauto].
  destruct body; cbn; try tauto.
  destruct (dict_find "access_token" kv); cbn; [| tauto].
  destruct (dict_find "refresh_token" kv); cbn; [| tauto].
  destruct (truthy (company_id (self s))); cbn;
    destruct (writable (world s)); cbn;
    (split;
     [ intro H; first [discriminate H | tauto]
     | intros [? | [? | [? | [? | [? | ?]]]]]; first [reflexivity | congruence] ]).
Qed.


(** A 200 answer of the token endpoint that carries an access token and
    no refresh token: the refresh returns [False], having put the new
    access token in memory and nothing else. *)
Lemma refresh_without_refresh_token (s : State) (r : Response)
  (kv : list (string * json)) (a : json) :
  truthy (refresh_token (self s)) = true ->
  server (clock (world s))
    (post_token (refresh_data CLIENT_ID CLIENT_SECRET (refresh_token (self s))))
    = Answer r ->
  status_code r = 200 ->
  json_body r = Some (JObj kv) ->
  dict_find "access_token" kv = Some a ->
  dict_find "refresh_token" kv = None ->
  exists s',
    refresh s = (Ok false, s') /\
    access_token (self s') = a /\
    refresh_token (self s') = refresh_token (self s) /\
    company_id (self s') = company_id (self s) /\
    token_file (world s') = token_file (world s).
Proof.
  intros Hrt Hans Hst Hbody Ha Hr.
  unfold _refresh_access_token, http, _save_tokens, response_json.
  unfold_monad. cbn.
  rewrite Hrt. cbn. rewrite Hans. cbn. rewrite Hst. cbn.
  rewrite Hbody. cbn. rewrite Ha. cbn. rewrite Hr. cbn.
  eexists. split; [reflexivity |]. cbn. auto.
Qed.

(** The state in which [_api_request] finds itself after a first answer
    of 401: one refresh; then the retry with the rebuilt header when the
    refresh succeeded, and the first response when it failed. *)
Lemma api_request_401 (s : State) (method endpoint : string) (flag : bool)
  (kw : kwargs) (r0 : Response) :
  let rq0 := api_call method endpoint flag kw (access_token (self s)) in
  server (clock (world s)) rq0 = Answer r0 ->
  status_code r0 = 401 ->
  exists b s1 d,
    refresh (snd (http server rq0 s)) = (Ok b, s1) /\
    trace (world s1) = (d ++ EvRefresh :: EvHttp rq0 (Answer r0) :: trace (world s))%list /\
    count is_refresh d = 0%nat /\
    count is_api_call d = 0%nat /\
    (count is_token_post d <= 1)%nat /\
    api_request method endpoint flag kw s =
      if b
      then
        let rq1 := api_retry method endpoint flag kw
                     (access_token (self s)) (access_token (self s1)) in
        (delivered (server (clock (world s1)) rq1), snd (http server rq1 s1))
      else (Ok r0, s1).
Proof.
  intros rq0 Hans H401.
  destruct (refresh_shape (snd (http server rq0 s))) as (b & s1 & d & Hr & Ht & Hc).
  exists b, s1, d.
  assert (Hs0 : http server rq0 s =
                (Ok r0, with_world (fun w => tick (log (EvHttp rq0 (Answer r0)) w)) s)).
  { unfold http. rewrite Hans. reflexivity. }
  rewrite Hs0 in Hr, Ht. cbn [snd] in Hr, Ht.
  split; [rewrite Hs0; exact Hr |].
  split; [exact Ht |].
  destruct Hc as (Hc1 & Hc2 & Hc3). do 3 (split; [assumption |]).
  unfold _api_request, bind, gets.
  match goal with
  | |- context [http server ?rq s] => change rq with rq0
  end.
  rewrite Hs0, H401. cbn [Z.eqb Pos.eqb].
  rewrite Hr.
  destruct b; [| reflexivity].
  unfold ret.
  match goal with
  | |- context [http server ?rq s1] =>
      change rq with (api_retry method endpoint flag kw
                        (access_token (self s)) (access_token (self s1)))
  end.
  cbn zeta. unfold http.
  destruct (server (clock (world s1)) _); reflexivity.
Qed.


Lemma http_trace (rq : Request) (s : State) :
  trace (world (snd (http server rq s))) =
  EvHttp rq (server (clock (world s)) rq) :: trace (world s).
Proof. unfold http. destruct (server _ _); reflexivity. Qed.

Lemma http_self (rq : Request) (s : State) :
  self (snd (http server rq s)) = self s.
Proof. unfold http. destruct (server _ _); reflexivity. Qed.

(** C1. A request through [_api_request] that is answered 401 makes
    exactly one refresh attempt (with at most one call of the token
    endpoint) and sends at most one more request; that retry carries the
    Authorization header rebuilt from the new access token, and whatever
    it yields, a second 401 included, is what the call returns. *)
Theorem api_request_refreshes_once (s : State) (method endpoint : string)
  (flag : bool) (kw : kwargs) (r0 : Response) (result : res Response) (s' : State) :
  server (clock (world s))
    (api_call method endpoint flag kw (access_token (self s))) = Answer r0 ->
  status_code r0 = 401 ->
  api_request method endpoint flag kw s = (result, s') ->
  exists d,
    trace (world s') = (d ++ trace (world s))%list /\
    count is_refresh d = 1%nat /\
    (count is_token_post d <= 1)%nat /\
    (count is_api_call d <= 2)%nat /\
    (count is_api_call d = 1%nat -> result = Ok r0) /\
    (count is_api_call d = 2%nat ->
     exists out d',
       d = EvHttp (api_retry method endpoint flag kw
                     (access_token (self s)) (access_token (self s'))) out :: d' /\
       result = delivered out).
Proof.
  intros Hans H401 Hrun.
  destruct (api_request_401 s method endpoint flag kw r0 Hans H401)
    as (b & s1 & d & _ & Ht & Hc1 & Hc2 & Hc3 & Heq).
  rewrite Heq in Hrun. clear Heq.
  pose proof (api_call_is_api_call method endpoint flag kw
                (access_token (self s)) (Answer r0)) as Hfirst.
  pose proof (api_call_not_token_post method endpoint flag kw
                (access_token (self s)) (Answer r0)) as Hfirst'.
  destruct b.
  - cbn zeta in Hrun. injection Hrun as Hres Hs'. subst s'.
    rewrite http_self.
    set (rq1 := api_retry method endpoint flag kw
                  (access_token (self s)) (access_token (self s1))) in *.
    set (out := server (clock (world s1)) rq1) in *.
    pose proof (api_retry_is_api_call method endpoint flag kw
                  (access_token (self s)) (access_token (self s1)) out) as Hretry.
    pose proof (api_retry_not_token_post method endpoint flag kw
                  (access_token (self s)) (access_token (self s1)) out) as Hretry'.
    fold rq1 in Hretry, Hretry'.
    exists (EvHttp rq1 out
              :: d ++ [EvRefresh;
                       EvHttp (api_call method endpoint flag kw (access_token (self s)))
                         (Answer r0)])%list.
    split.
    { rewrite http_trace, Ht. cbn. rewrite <- app_assoc. reflexivity. }
    rewrite !count_cons, !count_app, !count_cons, Hretry, Hretry', Hfirst, Hfirst'.
    cbn [is_refresh is_token_post is_api_call count filter List.length].
    repeat split; try lia.
    intros _. exists out, (d ++ [EvRefresh;
                       EvHttp (api_call method endpoint flag kw (access_token (self s)))
                         (Answer r0)])%list.
    split; [reflexivity | auto].
  - injection Hrun as Hres Hs'. subst s' result.
    exists (d ++ [EvRefresh;
                  EvHttp (api_call method endpoint flag kw (access_token (self s)))
                    (Answer r0)])%list.
    split.
    { rewrite Ht, <- app_assoc. reflexivity. }
    rewrite !count_app, !count_cons, Hfirst, Hfirst'.
    cbn [is_refresh is_token_post is_api_call count filter List.length].
    repeat split; try lia.
Qed.

(** C6. When the request is answered 401 and the refresh that follows
    returns [False], [_api_request] returns that first 401 response, and
    the request is not sent again: after it there is the one refresh
    attempt and no call of a resource endpoint. *)
Theorem api_request_refresh_failure (s : State) (method endpoint : string)
  (flag : bool) (kw : kwargs) (r0 : Response) :
  server (clock (world s))
    (api_call method endpoint flag kw (access_token (self s))) = Answer r0 ->
  status_code r0 = 401 ->
  fst (refresh (snd (http server
                       (api_call method endpoint flag kw (access_token (self s))) s)))
    = Ok false ->
  fst (api_request method endpoint flag kw s) = Ok r0 /\
  exists d,
    trace (world (snd (api_request method endpoint flag kw s))) =
      (d ++ EvHttp (api_call method endpoint flag kw (access_token (self s))) (Answer r0)
         :: trace (world s))%list /\
    count is_api_call d = 0%nat /\
    count is_refresh d = 1%nat.
Proof.
  intros Hans H401 Hfail.
  destruct (api_request_401 s method endpoint flag kw r0 Hans H401)
    as (b & s1 & d & Hr & Ht & Hc1 & Hc2 & Hc3 & Heq).
  rewrite Hr in Hfail. cbn in Hfail. injection Hfail as ->.
  rewrite Heq. cbn [fst snd]. split; [reflexivity |].
  exists (d ++ [EvRefresh])%list. split.
  { rewrite Ht, <- app_assoc. reflexivity. }
  rewrite !count_app, Hc1, Hc2. split; reflexivity.
Qed.

(** *** Dictionaries *)

Lemma dict_find_set_same {V : Type} (k : string) (v : V) (kv : list (string * V)) :
  dict_find k (dict_set k v kv) = Some v.
Proof.
  induction kv as [| [k' v'] r IH]; cbn.
  - rewrite String.eqb_refl. reflexivity.
  - destruct (k' =? k)%string eqn:E; cbn.
    + rewrite String.eqb_refl. reflexivity.
    + rewrite E. exact IH.
Qed.

Lemma dict_find_set_other {V : Type} (k k' : string) (v : V) (kv : list (string * V)) :
  k <> k' -> dict_find k' (dict_set k v kv) = dict_find k' kv.
Proof.
  intro Hne. induction kv as [| [k0 v0] r IH]; cbn.
  - destruct (k =? k')%string eqn:E; [apply String.eqb_eq in E; contradiction | reflexivity].
  - destruct (k0 =? k)%string eqn:E; cbn.
    + apply String.eqb_eq in E. subst k0.
      destruct (k =? k')%string eqn:E'; [apply String.eqb_eq in E'; contradiction | reflexivity].
    + destruct (k0 =? k')%string; [reflexivity | exact IH].
Qed.

(** *** The refresh and the stored company *)

(** C4. A successful refresh of a client whose company id is set writes a
    token file that holds the access and refresh tokens of the token
    endpoint's answer, which are also the tokens now in memory, together
    with the company id the client had; the company id in memory is
    unchanged. *)
Theorem refresh_keeps_company_id (s s' : State) :
  truthy (company_id (self s)) = true ->
  refresh s = (Ok true, s') ->
  exists r body file,
    server (clock (world s))
      (post_token (refresh_data CLIENT_ID CLIENT_SECRET (refresh_token (self s))))
      = Answer r /\
    json_body r = Some body /\
    token_file (world s') = Content file /\
    py_getitem file "company_id" = Ok (company_id (self s)) /\
    py_getitem file "access_token" = py_getitem body "access_token" /\
    py_getitem file "refresh_token" = py_getitem body "refresh_token" /\
    py_getitem file "access_token" = Ok (access_token (self s')) /\
    py_getitem file "refresh_token" = Ok (refresh_token (self s')) /\
    company_id (self s') = company_id (self s).
Proof.
  intros Hcid.
  unfold _refresh_access_token, refresh_data, http, _save_tokens, response_json.
  unfold_monad. cbn.
  destruct (truthy (refresh_token (self s))); cbn; [| discriminate].
  destruct (server _ _) as [r |] eqn:Hsrv; cbn; [| discriminate].
  destruct (status_code r =? 200); cbn; [| discriminate].
  destruct (json_body r) as [body |] eqn:Hbody; cbn; [| discriminate].
  destruct body as [| | | | | | kv]; cbn; try discriminate.
  destruct (dict_find "access_token" kv) as [a |] eqn:Ha; cbn; [| discriminate].
  destruct (dict_find "refresh_token" kv) as [t |] eqn:Ht; cbn; [| discriminate].
  rewrite Hcid. cbn.
  destruct (writable (world s)); cbn; [| discriminate].
  intros [= <-]. cbn.
  exists r, (JObj kv), (JObj (dict_set "company_id" (company_id (self s)) kv)).
  cbn. rewrite dict_find_set_same.
  rewrite !dict_find_set_other by discriminate.
  rewrite Ha, Ht. repeat split; auto.
Qed.

(** What [_load_tokens] puts in memory is what the file holds. *)
Lemma load_tokens_company_id (s : State) (kv : list (string * json)) :
  token_file (world s) = Content (JObj kv) ->
  company_id (self (snd (_load_tokens s))) =
    match dict_find "company_id" kv with Some c => c | None => JNull end /\
  world (snd (_load_tokens s)) = world s.
Proof.
  intro Hf. unfold _load_tokens. unfold_monad. cbn.
  repeat (rewrite Hf; cbn). split; reflexivity.
Qed.

(** *** The list and detail operations *)

(** [get_quotations] sends [min(limit, 100)], whatever the filters. *)
Lemma quotations_params_limit (cid : json) (limit : Z) (sd ed st : option string) :
  dict_find "limit" (quotations_params cid limit sd ed st) = Some (JInt (Z.min limit 100)).
Proof.
  unfold quotations_params.
  destruct (given sd), (given ed), (given st); reflexivity.
Qed.

(** [get_invoices] sends [limit] as it is, whatever the filters. *)
Lemma invoices_params_limit (cid : json) (limit : Z) (sd ed st : option string) :
  dict_find "limit" (invoices_params cid limit sd ed st) = Some (JInt limit).
Proof.
  unfold invoices_params.
  destruct (given sd), (given ed), (given st); reflexivity.
Qed.

(** C7. A list call whose response has status 200 and a Content-Type
    without [application/json] (or none) returns the empty list, in both
    clients; nothing is decoded and nothing is raised. *)
Theorem list_non_json_is_empty (s s1 : State) (r : Response) (limit : Z)
  (sd ed st : option string) :
  truthy (company_id (self s)) = true ->
  status_code r = 200 ->
  contains "application/json"
    (match content_type r with Some c => c | None => "" end) = false ->
  (api_request "GET" "/api/1/invoices" false
     (with_params (invoices_params (company_id (self s)) limit sd ed st)) s = (Ok r, s1) ->
   get_invoices server CLIENT_ID CLIENT_SECRET TOKEN_FILE limit sd ed st s
     = (Ok (JArr []), s1)) /\
  (api_request "GET" "/quotations" true
     (with_params (quotations_params (company_id (self s)) limit sd ed st)) s = (Ok r, s1) ->
   get_quotations server CLIENT_ID CLIENT_SECRET TOKEN_FILE limit sd ed st s
     = (Ok (JArr []), s1)).
Proof.
  intros Hcid Hst Hct. split; intro Hreq.
  - unfold get_invoices, bind, gets. rewrite Hcid. cbn [negb]. cbv zeta.
    rewrite Hreq, Hst. cbn [Z.eqb Pos.eqb].
    unfold try_except. rewrite Hct. reflexivity.
  - unfold get_quotations, bind, gets. rewrite Hcid. cbn [negb]. cbv zeta.
    rewrite Hreq, Hst. cbn [Z.eqb Pos.eqb].
    unfold try_except. rewrite Hct. reflexivity.
Qed.

(** What a detail call makes of the response of [_api_request]. *)
Lemma detail_of_response (key number : string) (r : Response) (s1 : State) :
  let run :=
    (if status_code r =? 200 then
       try_except
         (body <- lift (response_json r) ;;
          document <- lift (py_get body key JNull) ;;
          lift (touch document number) ;;
          ret document)
         is_JSONDecodeError
         (ret JNull)
     else ret JNull) s1 in
  (fst run = Ok JNull <-> status_code r <> 200 \/ json_body r = None) /\
  (forall body, status_code r = 200 -> json_body r = Some body ->
                (forall kv, body = JObj kv -> dict_find key kv = None) ->
                run = (Raise AttributeError, s1)).
Proof.
  clear strip int TOKEN_FILE.
  cbv zeta. unfold response_json, touch. unfold_monad.
  destruct (status_code r =? 200) eqn:Hst;
    [apply Z.eqb_eq in Hst | apply Z.eqb_neq in Hst].
  2:{ split; [cbn; tauto | intros; contradiction]. }
  destruct (json_body r) as [body |]; cbn.
  2:{ split; [tauto | intros; discriminate]. }
  split.
  - destruct body as [| | | | | | kv]; cbn;
      try (split; [intro; discriminate | intros [? | ?]; [contradiction | discriminate]]).
    destruct (dict_find key kv) as [[| | | | | | kv']|]; cbn;
      (split; [intro; discriminate | intros [? | ?]; [contradiction | discriminate]]).
  - intros body' _ [= <-] Hkey.
    destruct body as [| | | | | | kv]; cbn; try reflexivity.
    rewrite (Hkey kv eq_refl). reflexivity.
Qed.

(** C10. A detail call that gets a response returns [None] exactly when
    the status is not 200 or the body does not decode; a 200 response
    whose body decodes to JSON without the detail key (an object that
    lacks it, or a value that is no object) raises [AttributeError] out
    of the method.  Both clients. *)
Theorem detail_none_iff (s s1 : State) (r : Response) (id : string) :
  truthy (company_id (self s)) = true ->
  (api_request "GET" ("/api/1/invoices/" ++ id) false
     (with_params [("company_id", company_id (self s))]) s = (Ok r, s1) ->
   let run := get_invoice_detail server CLIENT_ID CLIENT_SECRET TOKEN_FILE id s in
   (fst run = Ok JNull <-> status_code r <> 200 \/ json_body r = None) /\
   (forall body, status_code r = 200 -> json_body r = Some body ->
                 (forall kv, body = JObj kv -> dict_find "invoice" kv = None) ->
                 run = (Raise AttributeError, s1))) /\
  (api_request "GET" ("/quotations/" ++ id) true
     (with_params [("company_id", company_id (self s))]) s = (Ok r, s1) ->
   let run := get_quotation_detail server CLIENT_ID CLIENT_SECRET TOKEN_FILE id s in
   (fst run = Ok JNull <-> status_code r <> 200 \/ json_body r = None) /\
   (forall body, status_code r = 200 -> json_body r = Some body ->
                 (forall kv, body = JObj kv -> dict_find "quotation" kv = None) ->
                 run = (Raise AttributeError, s1))).
Proof.
  intros Hcid. split; intro Hreq; cbv zeta.
  - assert (E : get_invoice_detail server CLIENT_ID CLIENT_SECRET TOKEN_FILE id s =
                (if status_code r =? 200 then
                   try_except
                     (body <- lift (response_json r) ;;
                      document <- lift (py_get body "invoice" JNull) ;;
                      lift (touch document "invoice_number") ;;
                      ret document)
                     is_JSONDecodeError
                     (ret JNull)
                 else ret JNull) s1).
    { unfold get_invoice_detail, bind, gets. rewrite Hcid. cbn [negb]. cbv zeta.
      rewrite Hreq. reflexivity. }
    rewrite E. apply (detail_of_response "invoice" "invoice_number" r s1).
  - assert (E : get_quotation_detail server CLIENT_ID CLIENT_SECRET TOKEN_FILE id s =
                (if status_code r =? 200 then
                   try_except
                     (body <- lift (response_json r) ;;
                      document <- lift (py_get body "quotation" JNull) ;;
                      lift (touch document "quotation_number") ;;
                      ret document)
                     is_JSONDecodeError
                     (ret JNull)
                 else ret JNull) s1).
    { unfold get_quotation_detail, bind, gets. rewrite Hcid. cbn [negb]. cbv zeta.
      rewrite Hreq. reflexivity. }
    rewrite E. apply (detail_of_response "quotation" "quotation_number" r s1).
Qed.

(** *** Company selection *)

Lemma for_each_ok (f : json -> res unit) (l : list json) :
  for_each f l = Ok tt -> Forall (fun x => f x = Ok tt) l.
Proof.
  induction l as [| x r IH]; cbn; intro H; [constructor |].
  destruct (f x) as [[] | e] eqn:E; [| discriminate].
  constructor; auto.
Qed.

Lemma touch_ok (x : json) (k : string) :
  touch x k = Ok tt -> exists kv, x = JObj kv.
Proof. destruct x; cbn; try discriminate. eauto. Qed.

(** A list that [get_company_info] returns went through its print loop:
    its elements are objects. *)
Lemma company_info_objects (s s1 : State) (cs : list json) :
  company_info s = (Ok (JArr cs), s1) ->
  for_each print_company cs = Ok tt /\ Forall (fun c => exists kv, c = JObj kv) cs.
Proof.
  unfold get_company_info, bind.
  destruct (api_request _ _ _ _ s) as [[r | e] s0]; [| discriminate].
  destruct (status_code r =? 200).
  2:{ unfold ret. intros [= <- _]. split; [reflexivity | constructor]. }
  unfold lift, ret, response_json.
  destruct (json_body r) as [body |]; [| discriminate].
  destruct (py_get body "companies" (JArr [])) as [company_list |]; [| discriminate].
  destruct (py_len company_list); [| discriminate].
  destruct (py_iter company_list) as [items |] eqn:Hit; [| discriminate].
  fold print_company.
  destruct (for_each print_company items) as [[] |] eqn:Hfe; [| discriminate].
  intros [= -> _]. cbn in Hit. injection Hit as <-.
  split; [exact Hfe |].
  apply for_each_ok in Hfe.
  eapply Forall_impl; [| exact Hfe].
  intros c Hc. unfold print_company in Hc.
  destruct (touch c "display_name") as [[] |] eqn:E; [| discriminate].
  eapply touch_ok; eassumption.
Qed.

(** A line that is not an integer in [1 .. n]: the loop asks again. *)
Lemma company_loop_rejects (companies : json) (n : nat) (line : string)
  (rest : list string) (s : State) :
  stdin (world s) = line :: rest ->
  accepted strip int n line = false ->
  company_loop strip int companies n (line :: rest) s =
  company_loop strip int companies n rest (prompted n rest s).
Proof.
  intros Hin Hrej. cbn [company_loop]. unfold bind at 1. unfold input.
  rewrite Hin. fold (prompted n rest s). unfold accepted in Hrej.
  destruct (int (strip line)) as [k |]; [| reflexivity].
  replace ((0 <=? k - 1) && (k - 1 <? Z.of_nat n)) with false; [reflexivity |].
  symmetry. apply andb_false_iff. apply andb_false_iff in Hrej.
  destruct Hrej as [H | H]; [left | right].
  - apply Z.leb_gt in H. apply Z.leb_gt. lia.
  - apply Z.leb_gt in H. apply Z.ltb_ge. lia.
Qed.

(** A line that is an integer in [1 .. n]: the loop takes that company
    and ends. *)
Lemma company_loop_accepts (cs : list json) (n : nat) (line : string)
  (rest : list string) (s : State) (k : Z) (kv : list (string * json)) :
  stdin (world s) = line :: rest ->
  int (strip line) = Some k ->
  1 <= k <= Z.of_nat n ->
  nth_error cs (Z.to_nat (k - 1)) = Some (JObj kv) ->
  company_loop strip int (JArr cs) n (line :: rest) s =
  (Ok tt,
   with_self (fun o => {| access_token := access_token o;
                          refresh_token := refresh_token o;
                          company_id := match dict_find "id" kv with
                                        | Some v => v
                                        | None => JNull
                                        end;
                          tokens_loaded := tokens_loaded o |})
     (prompted n rest s)).
Proof.
  intros Hin Hint Hk Hnth. cbn [company_loop]. unfold bind at 1. unfold input.
  rewrite Hin, Hint. fold (prompted n rest s).
  replace ((0 <=? k - 1) && (k - 1 <? Z.of_nat n)) with true.
  2:{ symmetry. apply andb_true_iff. split; [apply Z.leb_le | apply Z.ltb_lt]; lia. }
  unfold_monad. cbn. rewrite Hnth. reflexivity.
Qed.

(** The loop over a terminal that holds refused lines, then a good one. *)
Lemma company_loop_run (cs : list json) (n : nat) (rejected : list string)
  (line : string) (rest : list string) (k : Z) (kv : list (string * json)) :
  Forall (fun l => accepted strip int n l = false) rejected ->
  int (strip line) = Some k ->
  1 <= k <= Z.of_nat n ->
  nth_error cs (Z.to_nat (k - 1)) = Some (JObj kv) ->
  forall s,
    stdin (world s) = (rejected ++ line :: rest)%list ->
    exists s',
      company_loop strip int (JArr cs) n (rejected ++ line :: rest)%list s = (Ok tt, s') /\
      company_id (self s') =
        match dict_find "id" kv with Some v => v | None => JNull end /\
      stdin (world s') = rest /\
      token_file (world s') = token_file (world s) /\
      exists d, trace (world s') = (d ++ trace (world s))%list /\
                count is_prompt d = S (List.length rejected).
Proof.
  intros Hrej Hint Hk Hnth.
  induction Hrej as [| l rejected Hl Hrej IH]; intros s Hin.
  - cbn [app] in *. rewrite (company_loop_accepts cs n line rest s k kv) by assumption.
    eexists. split; [reflexivity |]. cbn. repeat split.
    exists [EvInput (AskCompany n)]. split; reflexivity.
  - cbn [app] in *. rewrite company_loop_rejects by assumption.
    destruct (IH (prompted n (rejected ++ line :: rest)%list s) eq_refl)
      as (s' & Hrun & Hcid & Hrest & Hfile & d & Htr & Hcount).
    exists s'. repeat split; auto.
    exists (d ++ [EvInput (AskCompany n)])%list. split.
    + rewrite Htr. cbn. rewrite <- app_assoc. reflexivity.
    + rewrite count_app, Hcount. cbn. lia.
Qed.

(** The end of [_fetch_company_id], which writes the choice to the token
    file: it returns, asks nothing and leaves the client as it is. *)
Lemma store_choice_quiet (s : State) :
  exists s',
    (ex <- path_exists ;;
     if ex then
       try_except
         (tokens <- read_token_file ;;
          cid <- gets (fun s => company_id (self s)) ;;
          tokens <- lift (py_setitem tokens "company_id" cid) ;;
          _save_tokens TOKEN_FILE tokens)
         is_Exception
         (ret tt)
     else ret tt) s = (Ok tt, s') /\
    self s' = self s /\ unprompted s s'.
Proof.
  unfold _save_tokens. unfold_monad. cbn.
  destruct (token_file (world s)) as [| | j] eqn:Hf; cbn; rewrite ?Hf; cbn;
    try (eexists; split; [reflexivity |]; split; [reflexivity | apply unprompted_refl]).
  destruct j; cbn;
    try (eexists; split; [reflexivity |]; split; [reflexivity | apply unprompted_refl]).
  destruct (writable (world s)); cbn;
    (eexists; split; [reflexivity |]; split; [reflexivity |]).
  - split; [reflexivity |]. eexists [_]. split; reflexivity.
  - apply unprompted_refl.
Qed.

Lemma bind_ok {A B : Type} (m : M A) (k : A -> M B) (s s1 : State) (a : A) :
  m s = (Ok a, s1) -> bind m k s = k a s1.
Proof. intro H. unfold bind. rewrite H. reflexivity. Qed.

Lemma bind_raise {A B : Type} (m : M A) (k : A -> M B) (s s1 : State) (e : exn) :
  m s = (Raise e, s1) -> bind m k s = (Raise e, s1).
Proof. intro H. unfold bind. rewrite H. reflexivity. Qed.

(** C8. Once the company list is fetched: a list of one company is
    selected with no prompt and no line read; with [N > 1] companies, each
    line that is not an integer in [1 .. N] is answered by a new prompt,
    and the first line that is one selects the company of that rank. *)
Theorem company_selection (s s1 : State) (cs : list json) :
  company_info s = (Ok (JArr cs), s1) ->
  (forall c, cs = [c] ->
     exists s',
       _fetch_company_id server CLIENT_ID CLIENT_SECRET TOKEN_FILE strip int s
         = (Ok tt, s') /\
       py_get c "id" JNull = Ok (company_id (self s')) /\
       stdin (world s') = stdin (world s) /\
       exists d, trace (world s') = (d ++ trace (world s))%list /\
                 count is_prompt d = 0%nat) /\
  ((1 < List.length cs)%nat ->
   forall rejected line rest k,
     stdin (world s) = (rejected ++ line :: rest)%list ->
     Forall (fun l => accepted strip int (List.length cs) l = false) rejected ->
     int (strip line) = Some k ->
     1 <= k <= Z.of_nat (List.length cs) ->
     exists s' c,
       _fetch_company_id server CLIENT_ID CLIENT_SECRET TOKEN_FILE strip int s
         = (Ok tt, s') /\
       nth_error cs (Z.to_nat (k - 1)) = Some c /\
       py_get c "id" JNull = Ok (company_id (self s')) /\
       stdin (world s') = rest /\
       exists d, trace (world s') = (d ++ trace (world s))%list /\
                 count is_prompt d = S (List.length rejected)).
Proof.
  intro Hinfo.
  destruct (company_info_objects s s1 cs Hinfo) as [Hshow Hobj].
  pose proof (unprompted_company_info s) as Hquiet.
  rewrite Hinfo in Hquiet. cbn [snd] in Hquiet.
  destruct Hquiet as [Hin1 (d1 & Htr1 & Hc1)].
  split.
  - intros c ->.
    inversion Hobj as [| c' l' [kv ->] _]; subst.
    unfold _fetch_company_id.
    rewrite (bind_ok _ _ _ _ _ Hinfo).
    erewrite bind_ok by reflexivity. cbn [List.length Nat.ltb Nat.leb].
    destruct (store_choice_quiet
                (with_self (fun o => {| access_token := access_token o;
                                        refresh_token := refresh_token o;
                                        company_id := match dict_find "id" kv with
                                                      | Some v => v
                                                      | None => JNull
                                                      end;
                                        tokens_loaded := tokens_loaded o |}) s1))
      as (s' & Hstore & Hself & Hst & d & Htr & Hc).
    erewrite bind_ok by reflexivity.
    rewrite Hstore. exists s'. split; [reflexivity |].
    rewrite Hself. cbn. split; [reflexivity |].
    split; [cbn in Hst; congruence |].
    exists (d ++ d1)%list. split.
    + rewrite Htr. cbn. rewrite Htr1. apply app_assoc.
    + rewrite count_app, Hc, Hc1. reflexivity.
  - intros Hlen rejected line rest k Hin Hrej Hint Hk.
    assert (Hnth : exists kv, nth_error cs (Z.to_nat (k - 1)) = Some (JObj kv)).
    { destruct (nth_error cs (Z.to_nat (k - 1))) as [c |] eqn:E.
      - rewrite Forall_forall in Hobj.
        destruct (Hobj c (nth_error_In _ _ E)) as [kv ->]. eauto.
      - apply nth_error_None in E. lia. }
    destruct Hnth as [kv Hnth].
    rewrite <- Hin1 in Hin.
    destruct (company_loop_run cs (List.length cs) rejected line rest k kv
                Hrej Hint Hk Hnth s1 Hin)
      as (s2 & Hloop & Hcid & Hrest & _ & d2 & Htr2 & Hc2).
    destruct (store_choice_quiet s2) as (s' & Hstore & Hself & Hst & d & Htr & Hc).
    unfold _fetch_company_id.
    rewrite (bind_ok _ _ _ _ _ Hinfo).
    destruct cs as [| c1 [| c2 cs']]; cbn [List.length] in Hlen; try lia.
    erewrite bind_ok by reflexivity. cbn [List.length Nat.ltb Nat.leb].
    erewrite bind_ok with (s1 := s2) (a := tt).
    2:{ erewrite bind_ok by reflexivity.
        erewrite bind_ok by (unfold lift; rewrite Hshow; reflexivity).
        erewrite bind_ok by reflexivity.
        rewrite Hin. exact Hloop. }
    rewrite Hstore. exists s', (JObj kv). split; [reflexivity |].
    split; [exact Hnth |]. rewrite Hself, Hcid. cbn.
    split; [reflexivity |]. split; [congruence |].
    exists (d ++ d2 ++ d1)%list. split.
    + rewrite Htr, Htr2, Htr1. rewrite !app_assoc. reflexivity.
    + rewrite !count_app, Hc, Hc2, Hc1. cbn [List.length]. lia.
Qed.

(** *** Forced re-authentication *)

Lemma extends_os_remove : preserves extends (os_remove TOKEN_FILE).
Proof.
  intro s. unfold os_remove.
  destruct (token_file (world s)); try (exists []; reflexivity);
    destruct (removable (world s));
    [exists [EvRemove TOKEN_FILE] | exists [] | exists [EvRemove TOKEN_FILE] | exists []];
    reflexivity.
Qed.

(** What follows a statement only adds to what the statement did. *)
Lemma extends_after {A B : Type} (m : M A) (k : A -> M B) (catches : exn -> bool)
  (h : M B) (s : State) :
  (forall a, preserves extends (k a)) ->
  preserves extends h ->
  extends (snd (m s)) (snd (try_except (bind m k) catches h s)).
Proof.
  intros Hk Hh. unfold try_except, bind.
  destruct (m s) as [[a | e] s1]; cbn [snd].
  - specialize (Hk a s1). destruct (k a s1) as [[b | e] s2]; cbn [snd] in *; [exact Hk |].
    destruct (catches e); cbn [snd]; [| exact Hk].
    eapply extends_trans; [exact Hk | apply Hh].
  - destruct (catches e); cbn [snd]; [apply Hh | apply extends_refl].
Qed.

(** [_authenticate] opens the authorization URL and asks for the code;
    when a code is typed, the next thing it does is the code exchange. *)
Lemma authenticate_trace (s : State) :
  exists d,
    trace (world (snd (_authenticate server CLIENT_ID CLIENT_SECRET TOKEN_FILE strip s))) =
      (d ++ EvInput AskAuthCode :: EvBrowser AUTH_URL (authorize_query CLIENT_ID)
         :: trace (world s))%list /\
    forall line rest,
      stdin (world s) = line :: rest -> strip line <> "" ->
      exists d' out, d = (d' ++ [EvHttp (post_token (exchange_data CLIENT_ID CLIENT_SECRET (strip line))) out])%list.
Proof.
  unfold _authenticate. cbv zeta. unfold bind at 1. unfold emit, modify.
  unfold bind at 1. unfold input. cbn [world with_world stdin log].
  destruct (stdin (world s)) as [| line rest] eqn:Hin.
  { exists []. split; [reflexivity | intros; discriminate]. }
  destruct (strip line =? "")%string eqn:Hcode.
  { exists []. split; [reflexivity |].
    intros l r [= <- <-] Hne. apply String.eqb_eq in Hcode. contradiction. }
  match goal with
  | |- context [try_except (bind (http server ?rq) ?k) ?c ?h ?s0] =>
      assert (Hext : extends (snd (http server rq s0))
                       (snd (try_except (bind (http server rq) k) c h s0)))
  end.
  { pose proof extends_refl. pose proof extends_trans. pose proof extends_self.
    pose proof extends_save.
    apply extends_after; [intro |]; through. }
  destruct Hext as [d Hd]. rewrite http_trace in Hd.
  match goal with
  | H : trace _ = (d ++ EvHttp _ ?out :: _)%list |- _ =>
      exists (d ++ [EvHttp (post_token (exchange_data CLIENT_ID CLIENT_SECRET (strip line))) out])%list
  end.
  split.
  - rewrite Hd. cbn. rewrite <- app_assoc. reflexivity.
  - intros l r [= <- <-] _. eauto.
Qed.

(** C5, as the code has it.  With the re-authenticate flag, both secrets
    configured, and a token file that is absent or can be removed: the
    session starts without a token file, and the first things it does are
    to open the authorization URL and to ask for the code; no stored token
    is probed before.  When the line typed is not blank, the code exchange
    follows at once. *)
Theorem reauth_runs_authenticate (s : State) :
  token_file (world s) = Absent \/ removable (world s) = true ->
  given CLIENT_ID = true ->
  given CLIENT_SECRET = true ->
  let s0 := snd (main_prelude TOKEN_FILE strip true s) in
  let s' := snd (main server CLIENT_ID CLIENT_SECRET TOKEN_FILE strip int true s) in
  token_file (world s0) = Absent /\
  (trace (world s0) = trace (world s) \/
   trace (world s0) = EvRemove TOKEN_FILE :: trace (world s)) /\
  exists d,
    trace (world s') =
      (d ++ EvInput AskAuthCode :: EvBrowser AUTH_URL (authorize_query CLIENT_ID)
         :: trace (world s0))%list /\
    forall line rest,
      stdin (world s) = line :: rest -> strip line <> "" ->
      exists d' out, d = (d' ++ [EvHttp (post_token (exchange_data CLIENT_ID CLIENT_SECRET (strip line))) out])%list.
Proof.
  intros Hfile Hid Hsecret. cbv zeta.
  assert (Hpre : exists s0,
             main_prelude TOKEN_FILE strip true s = (Ok tt, s0) /\
             token_file (world s0) = Absent /\
             stdin (world s0) = stdin (world s) /\
             (trace (world s0) = trace (world s) \/
              trace (world s0) = EvRemove TOKEN_FILE :: trace (world s))).
  { unfold main_prelude, discard_token_file, os_remove. unfold_monad. cbn.
    destruct (token_file (world s)) eqn:Hf; cbn; rewrite ?Hf; cbn.
    - eexists. split; [reflexivity |]. auto.
    - destruct Hfile as [? | ->]; [discriminate |]. cbn.
      eexists. split; [reflexivity |]. cbn. auto.
    - destruct Hfile as [? | ->]; [discriminate |]. cbn.
      eexists. split; [reflexivity |]. cbn. auto. }
  destruct Hpre as (s0 & Hpre & Habs & Hin0 & Htr0).
  rewrite Hpre. cbn [snd]. split; [exact Habs |]. split; [exact Htr0 |].
  unfold main. rewrite (bind_ok _ _ _ _ _ Hpre).
  set (s1 := with_self (fun _ => fresh_self) s0).
  assert (Hinit :
             try_except
               (__init__ server CLIENT_ID CLIENT_SECRET TOKEN_FILE strip int)
               is_Exception (sys_exit 1) s0 =
             try_except
               (bind (_authenticate server CLIENT_ID CLIENT_SECRET TOKEN_FILE strip)
                  (fun _ =>
                     cid <- gets (fun s => company_id (self s)) ;;
                     if negb (truthy cid)
                     then _fetch_company_id server CLIENT_ID CLIENT_SECRET TOKEN_FILE
                            strip int
                     else ret tt))
               is_Exception (sys_exit 1) s1).
  { unfold __init__, _load_tokens. rewrite Hid, Hsecret. cbn [negb orb].
    unfold try_except. f_equal.
    unfold path_exists, bind at 1, modify. fold s1.
    unfold bind at 1. unfold bind at 1. unfold gets at 1.
    replace (token_file (world s1)) with Absent by (symmetry; exact Habs).
    unfold ret at 1. unfold bind at 1. unfold gets at 1.
    cbn [tokens_loaded self s1 with_self fresh_self].
    unfold bind at 1. unfold ret at 1. cbn [negb]. reflexivity. }
  rewrite Hinit. clear Hinit.
  destruct (authenticate_trace s1) as (d & Hd & Hpost).
  assert (Hext : extends
                   (snd (_authenticate server CLIENT_ID CLIENT_SECRET TOKEN_FILE strip s1))
                   (snd (try_except
                           (bind (_authenticate server CLIENT_ID CLIENT_SECRET TOKEN_FILE strip)
                              (fun _ =>
                                 cid <- gets (fun s => company_id (self s)) ;;
                                 if negb (truthy cid)
                                 then _fetch_company_id server CLIENT_ID CLIENT_SECRET
                                        TOKEN_FILE strip int
                                 else ret tt))
                           is_Exception (sys_exit 1) s1))).
  { pose proof extends_refl. pose proof extends_trans. pose proof extends_self.
    pose proof extends_fetch_company_id.
    apply extends_after; [intro |]; through. }
  destruct Hext as [d2 Hd2].
  exists (d2 ++ d)%list. split.
  - rewrite Hd2, Hd. cbn. rewrite <- app_assoc. reflexivity.
  - intros line rest Hin Hne.
    destruct (Hpost line rest) as (d' & out & ->); [cbn; congruence | exact Hne |].
    exists (d2 ++ d')%list, out. apply app_assoc.
Qed.

(** *** The two clients and the document service *)

Lemma touch_any_key (x : json) (k k' : string) : touch x k = touch x k'.
Proof. destruct x; reflexivity. Qed.

Lemma for_each_ext (f g : json -> res unit) (l : list json) :
  (forall x, f x = g x) -> for_each f l = for_each g l.
Proof.
  intro H. induction l as [| x r IH]; cbn; [reflexivity |].
  rewrite H, IH. reflexivity.
Qed.

(** The quotation client is the document service at the quotation schema,
    for every argument. *)
Lemma get_quotations_is_service (limit : Z) (sd ed st : option string) (s : State) :
  get_quotations server CLIENT_ID CLIENT_SECRET TOKEN_FILE limit sd ed st s =
  DocumentService_list server CLIENT_ID CLIENT_SECRET TOKEN_FILE quotation_schema
    limit sd ed st s.
Proof.
  unfold get_quotations, DocumentService_list.
  change (DocumentService_params quotation_schema) with quotations_params.
  cbn [sch_list_path sch_invoice_api sch_list_key sch_number_key quotation_schema].
  unfold_monad.
  repeat
    match goal with
    | |- ?l = ?l => reflexivity
    | |- context [for_each ?f ?items] =>
        lazymatch f with
        | context ["partner_name"] =>
            rewrite (for_each_ext f
                       (fun doc =>
                          match touch doc "quotation_number" with
                          | Ok _ => match py_get doc "total_amount" (JInt 0) with
                                    | Ok amount => fmt_number amount
                                    | Raise e => Raise e
                                    end
                          | Raise e => Raise e
                          end) items)
              by (intro x;
                  rewrite (touch_any_key x "partner_name" "quotation_number");
                  reflexivity)
        end
    | _ => break_match
    end.
Qed.

(** The invoice client is the document service at the invoice schema as
    long as the limit asked for does not exceed the cap. *)
Lemma get_invoices_is_service (limit : Z) (sd ed st : option string) (s : State) :
  limit <= 100 ->
  get_invoices server CLIENT_ID CLIENT_SECRET TOKEN_FILE limit sd ed st s =
  DocumentService_list server CLIENT_ID CLIENT_SECRET TOKEN_FILE invoice_schema
    limit sd ed st s.
Proof.
  intro Hcap. unfold get_invoices, DocumentService_list.
  replace (DocumentService_params invoice_schema) with
    (fun cid l sd ed st => invoices_params cid (Z.min l 100) sd ed st) by reflexivity.
  cbv beta. rewrite Z.min_l by exact Hcap. reflexivity.
Qed.

Lemma get_invoice_detail_is_service (id : string) (s : State) :
  get_invoice_detail server CLIENT_ID CLIENT_SECRET TOKEN_FILE id s =
  DocumentService_detail server CLIENT_ID CLIENT_SECRET TOKEN_FILE invoice_schema id s.
Proof. reflexivity. Qed.

Lemma get_quotation_detail_is_service (id : string) (s : State) :
  get_quotation_detail server CLIENT_ID CLIENT_SECRET TOKEN_FILE id s =
  DocumentService_detail server CLIENT_ID CLIENT_SECRET TOKEN_FILE quotation_schema id s.
Proof. reflexivity. Qed.

End Properties.

(** ** The theorems on the fixtures *)

Module Run.
Import Demo.

(** *** Runs that contradict the design document *)

(** C2. Asked for 150 invoices, [get_invoices] sends [limit = 150];
    [get_quotations] sends 100 on the same input. *)
Theorem get_invoices_sends_limit_uncapped :
  trace (world (snd (get_invoices srv_empty_object ID SECRET FILE
                       150 None None None s_old))) =
    [EvHttp (api_call "GET" "/api/1/invoices" false
               (with_params [("company_id", JInt 7); ("limit", JInt 150)])
               (JStr "old"))
       (json_answer 200 (JObj []))] /\
  trace (world (snd (get_quotations srv_empty_object ID SECRET FILE
                       150 None None None s_old))) =
    [EvHttp (api_call "GET" "/quotations" true
               (with_params [("company_id", JInt 7); ("limit", JInt 100)])
               (JStr "old"))
       (json_answer 200 (JObj []))].
Proof. split; reflexivity. Qed.

(** C3. The token endpoint answers 200 with an access token and no
    refresh token.  The refresh returns [False] with the new access token
    in memory next to the old refresh token, and the file untouched; the
    code exchange exits with the new access token and no refresh token. *)
Theorem token_update_is_not_atomic :
  fst (_refresh_access_token srv_partial ID SECRET FILE s_old) = Ok false /\
  self (snd (_refresh_access_token srv_partial ID SECRET FILE s_old)) =
    {| access_token := JStr "new"; refresh_token := JStr "r0";
       company_id := JInt 7; tokens_loaded := true |} /\
  token_file (world (snd (_refresh_access_token srv_partial ID SECRET FILE s_old)))
    = Content stored /\
  fst (_authenticate srv_partial ID SECRET FILE ascii_strip s_fresh_code)
    = Raise (SystemExit 1) /\
  self (snd (_authenticate srv_partial ID SECRET FILE ascii_strip s_fresh_code)) =
    {| access_token := JStr "new"; refresh_token := JNull;
       company_id := JNull; tokens_loaded := false |}.
Proof. repeat split; reflexivity. Qed.

(** C9. At [limit = 150] the invoice client is not the document service
    at the invoice schema: it sends 150 where the service, and the
    quotation client, send 100.  No schema entry accounts for that. *)
Theorem invoice_client_differs_beyond_schema :
  get_invoices srv_empty_object ID SECRET FILE 150 None None None s_old <>
  DocumentService_list srv_empty_object ID SECRET FILE invoice_schema
    150 None None None s_old /\
  dict_find "limit" (invoices_params (JInt 7) 150 None None None) = Some (JInt 150) /\
  dict_find "limit" (DocumentService_params invoice_schema (JInt 7) 150 None None None)
    = Some (JInt 100) /\
  dict_find "limit" (quotations_params (JInt 7) 150 None None None) = Some (JInt 100).
Proof.
  split; [| repeat split; reflexivity].
  intro H. apply (f_equal (fun run => trace (world (snd run)))) in H.
  vm_compute in H. discriminate H.
Qed.

(** C5, as stated, fails.  The flag is given, the token file cannot be
    removed and the stored token is valid: the file stays, the run
    completes, and the Authenticating branch never runs. *)
Lemma reauth_flag_with_locked_file :
  token_file (world (snd (main_prelude FILE ascii_strip true s_locked))) <> Absent /\
  fst (main srv_valid ID SECRET FILE ascii_strip ascii_int true s_locked) = Ok tt /\
  ~ authenticating_ran
      (trace (world (snd (main srv_valid ID SECRET FILE ascii_strip ascii_int
                            true s_locked)))).
Proof.
  split; [vm_compute; discriminate |]. split; [reflexivity |].
  intros (q & Hb & _). vm_compute in Hb.
  destruct Hb as [Hb | []]. discriminate Hb.
Qed.

(** *** Instances of the theorems *)

Lemma api_request_refreshes_once_witness :
  srv_expired (clock (world s_old))
    (api_call "GET" "/api/1/invoices" false no_kwargs (access_token (self s_old)))
    = json_answer 401 (JObj []) /\
  exists d,
    trace (world (snd (_api_request srv_expired ID SECRET FILE
                         "GET" "/api/1/invoices" false no_kwargs s_old))) =
      (d ++ trace (world s_old))%list /\
    count is_refresh d = 1%nat /\
    (count is_token_post d <= 1)%nat /\
    (count is_api_call d <= 2)%nat /\
    (count is_api_call d = 1%nat ->
     fst (_api_request srv_expired ID SECRET FILE
            "GET" "/api/1/invoices" false no_kwargs s_old) =
       delivered (json_answer 401 (JObj []))) /\
    (count is_api_call d = 2%nat ->
     exists out d',
       d = EvHttp (api_retry "GET" "/api/1/invoices" false no_kwargs
                     (access_token (self s_old))
                     (access_token
                        (self (snd (_api_request srv_expired ID SECRET FILE
                                      "GET" "/api/1/invoices" false no_kwargs s_old)))))
             out :: d' /\
       fst (_api_request srv_expired ID SECRET FILE
              "GET" "/api/1/invoices" false no_kwargs s_old) = delivered out).
Proof.
  split; [reflexivity |].
  apply (api_request_refreshes_once srv_expired ID SECRET FILE s_old
           "GET" "/api/1/invoices" false no_kwargs
           {| status_code := 401; content_type := Some "application/json";
              json_body := Some (JObj []) |}); reflexivity.
Defined.

Lemma api_request_refresh_failure_witness :
  srv_denied (clock (world s_old))
    (api_call "GET" "/api/1/invoices" false no_kwargs (access_token (self s_old)))
    = json_answer 401 (JObj []) /\
  fst (_refresh_access_token srv_denied ID SECRET FILE
         (snd (http srv_denied
                 (api_call "GET" "/api/1/invoices" false no_kwargs
                    (access_token (self s_old))) s_old))) = Ok false /\
  fst (_api_request srv_denied ID SECRET FILE
         "GET" "/api/1/invoices" false no_kwargs s_old) =
    delivered (json_answer 401 (JObj [])) /\
  exists d,
    trace (world (snd (_api_request srv_denied ID SECRET FILE
                         "GET" "/api/1/invoices" false no_kwargs s_old))) =
      (d ++ EvHttp (api_call "GET" "/api/1/invoices" false no_kwargs
                      (access_token (self s_old)))
              (json_answer 401 (JObj []))
         :: trace (world s_old))%list /\
    count is_api_call d = 0%nat /\
    count is_refresh d = 1%nat.
Proof.
  split; [reflexivity |]. split; [reflexivity |].
  apply (api_request_refresh_failure srv_denied ID SECRET FILE s_old
           "GET" "/api/1/invoices" false no_kwargs
           {| status_code := 401; content_type := Some "application/json";
              json_body := Some (JObj []) |}); reflexivity.
Defined.

Lemma refresh_keeps_company_id_witness :
  truthy (company_id (self s_old)) = true /\
  _refresh_access_token srv_refresh ID SECRET FILE s_old =
    (Ok true, snd (_refresh_access_token srv_refresh ID SECRET FILE s_old)) /\
  exists r body file,
    srv_refresh (clock (world s_old))
      (post_token (refresh_data ID SECRET (refresh_token (self s_old)))) = Answer r /\
    json_body r = Some body /\
    token_file (world (snd (_refresh_access_token srv_refresh ID SECRET FILE s_old)))
      = Content file /\
    py_getitem file "company_id" = Ok (company_id (self s_old)) /\
    py_getitem file "access_token" = py_getitem body "access_token" /\
    py_getitem file "refresh_token" = py_getitem body "refresh_token" /\
    py_getitem file "access_token" =
      Ok (access_token
            (self (snd (_refresh_access_token srv_refresh ID SECRET FILE s_old)))) /\
    py_getitem file "refresh_token" =
      Ok (refresh_token
            (self (snd (_refresh_access_token srv_refresh ID SECRET FILE s_old)))) /\
    company_id (self (snd (_refresh_access_token srv_refresh ID SECRET FILE s_old)))
      = company_id (self s_old).
Proof.
  split; [reflexivity |]. split; [reflexivity |].
  apply (refresh_keeps_company_id srv_refresh ID SECRET FILE s_old); reflexivity.
Defined.

Lemma list_non_json_is_empty_witness :
  get_invoices srv_html ID SECRET FILE 100 None None None s_old =
    (Ok (JArr []),
     snd (_api_request srv_html ID SECRET FILE "GET" "/api/1/invoices" false
            (with_params (invoices_params (JInt 7) 100 None None None)) s_old)) /\
  get_quotations srv_html ID SECRET FILE 100 None None None s_old =
    (Ok (JArr []),
     snd (_api_request srv_html ID SECRET FILE "GET" "/quotations" true
            (with_params (quotations_params (JInt 7) 100 None None None)) s_old)).
Proof.
  split.
  - apply (proj1 (list_non_json_is_empty srv_html ID SECRET FILE s_old _
                    {| status_code := 200; content_type := Some "text/html";
                       json_body := None |}
                    100 None None None eq_refl eq_refl eq_refl)).
    reflexivity.
  - apply (proj2 (list_non_json_is_empty srv_html ID SECRET FILE s_old _
                    {| status_code := 200; content_type := Some "text/html";
                       json_body := None |}
                    100 None None None eq_refl eq_refl eq_refl)).
    reflexivity.
Defined.

Lemma detail_none_iff_witness :
  get_invoice_detail srv_empty_object ID SECRET FILE "12" s_old =
    (Raise AttributeError,
     snd (_api_request srv_empty_object ID SECRET FILE "GET" "/api/1/invoices/12" false
            (with_params [("company_id", JInt 7)]) s_old)) /\
  get_quotation_detail srv_empty_object ID SECRET FILE "12" s_old =
    (Raise AttributeError,
     snd (_api_request srv_empty_object ID SECRET FILE "GET" "/quotations/12" true
            (with_params [("company_id", JInt 7)]) s_old)).
Proof.
  split.
  - apply (proj2 (proj1 (detail_none_iff srv_empty_object ID SECRET FILE s_old _
                           {| status_code := 200;
                              content_type := Some "application/json";
                              json_body := Some (JObj []) |}
                           "12" eq_refl) eq_refl) (JObj []) eq_refl eq_refl
             ltac:(intros kv [= <-]; reflexivity)).
  - apply (proj2 (proj2 (detail_none_iff srv_empty_object ID SECRET FILE s_old _
                           {| status_code := 200;
                              content_type := Some "application/json";
                              json_body := Some (JObj []) |}
                           "12" eq_refl) eq_refl) (JObj []) eq_refl eq_refl
             ltac:(intros kv [= <-]; reflexivity)).
Defined.

Lemma company_selection_witness :
  (exists s',
     _fetch_company_id srv_one_company ID SECRET FILE ascii_strip ascii_int s_choosing
       = (Ok tt, s') /\
     py_get (company 1 "A") "id" JNull = Ok (company_id (self s')) /\
     stdin (world s') = stdin (world s_choosing) /\
     exists d, trace (world s') = (d ++ trace (world s_choosing))%list /\
               count is_prompt d = 0%nat) /\
  (exists s' c,
     _fetch_company_id srv_two_companies ID SECRET FILE ascii_strip ascii_int s_choosing
       = (Ok tt, s') /\
     nth_error [company 1 "A"; company 2 "B"] (Z.to_nat (2 - 1)) = Some c /\
     py_get c "id" JNull = Ok (company_id (self s')) /\
     stdin (world s') = ["later"] /\
     exists d, trace (world s') = (d ++ trace (world s_choosing))%list /\
               count is_prompt d = 4%nat).
Proof.
  split.
  - apply (proj1 (company_selection srv_one_company ID SECRET FILE ascii_strip ascii_int
                    s_choosing _ [company 1 "A"] eq_refl) (company 1 "A") eq_refl).
  - apply (proj2 (company_selection srv_two_companies ID SECRET FILE ascii_strip ascii_int
                    s_choosing _ [company 1 "A"; company 2 "B"] eq_refl)
             ltac:(cbn; lia) ["abc"; "0"; "3"] " 2 " ["later"] 2 eq_refl).
    + repeat constructor.
    + reflexivity.
    + cbn. lia.
Defined.

Lemma reauth_runs_authenticate_witness :
  (token_file (world s_fresh_code) = Absent \/ removable (world s_fresh_code) = true) /\
  token_file (world (snd (main_prelude FILE ascii_strip true s_fresh_code))) = Absent /\
  (trace (world (snd (main_prelude FILE ascii_strip true s_fresh_code)))
     = trace (world s_fresh_code) \/
   trace (world (snd (main_prelude FILE ascii_strip true s_fresh_code)))
     = EvRemove FILE :: trace (world s_fresh_code)) /\
  exists d,
    trace (world (snd (main srv_exchange ID SECRET FILE ascii_strip ascii_int
                         true s_fresh_code))) =
      (d ++ EvInput AskAuthCode :: EvBrowser AUTH_URL (authorize_query ID)
         :: trace (world (snd (main_prelude FILE ascii_strip true s_fresh_code))))%list /\
    forall line rest,
      stdin (world s_fresh_code) = line :: rest -> ascii_strip line <> "" ->
      exists d' out,
        d = (d' ++ [EvHttp (post_token (exchange_data ID SECRET (ascii_strip line))) out])%list.
Proof.
  split; [right; reflexivity |].
  apply (reauth_runs_authenticate srv_exchange ID SECRET FILE ascii_strip ascii_int
           s_fresh_code); [right |..]; reflexivity.
Defined.

End Run.
